(** * ChillMCP break tools: the shared lifecycle and the hidden-combo detector

    A shallow embedding of [src/core/tools.py].  The module keeps one global
    [server_state]; every break tool runs [execute_break_tool], which sleeps
    when the boss is alert, lowers the stress level by a random amount, lets
    the boss alert level rise, records the tool in [recent_actions] and
    [combo_count], and finally asks [check_hidden_combo] for a hidden event.

    The Python coroutines are embedded in a small state-and-exception monad
    over a [World]: the module global, the source of randomness, and the list
    of calls made to the outside (sleeps and the two [ServerState] methods).
    Calls run one at a time: no other coroutine touches the state while one
    is awaiting. *)

From stdpp Require Import gmap strings list fin_maps.
From Stdlib Require Import ZArith Lia.

Local Open Scope Z_scope.

(** ** Data *)

(** The fields of [ServerState] the tools read and write.  [recent_actions]
    and [combo_count] are the two attributes [initialize_state] adds. *)
Record ServerState := mkServerState {
  stress_level : Z;
  boss_alert_level : Z;
  recent_actions : list string;
  combo_count : gmap string Z
}.

(** Calls that leave the module, in the order they are made. *)
Inductive Effect :=
| Sleep (seconds : Z)
| DecreaseStress (amount : Z)
| MaybeIncreaseBossAlert.

Global Instance Effect_eq_dec : EqDecision Effect.
Proof. solve_decision. Defined.

Inductive Exn :=
| AttributeError
| ValueError.

Inductive Result (A : Type) :=
| Returned (a : A)
| Raised (e : Exn).
Arguments Returned {A} a.
Arguments Raised {A} e.

(** [server_state] is the module global ([None] until [initialize_state]);
    [entropy] is the stream the random draws come from and [draws] counts
    how many were taken; [effects] is the log of outside calls, oldest
    first. *)
Record World := mkWorld {
  server_state : option ServerState;
  entropy : nat -> Z;
  draws : nat;
  effects : list Effect
}.

(** ** The monad *)

Definition M (A : Type) : Type := World -> Result A * World.

Definition ret {A} (a : A) : M A := fun w => (Returned a, w).

Definition raise {A} (e : Exn) : M A := fun w => (Raised e, w).

Definition bind {A B} (m : M A) (k : A -> M B) : M B :=
  fun w =>
    match m w with
    | (Returned a, w') => k a w'
    | (Raised e, w') => (Raised e, w')
    end.

Notation "x <- m ;; k" := (bind m (fun x => k))
  (at level 100, m at next level, right associativity).
Notation "m ;; k" := (bind m (fun _ => k))
  (at level 100, right associativity).

(** Reading an attribute of the global fails while it is still [None]. *)
Definition get_server_state : M ServerState :=
  fun w =>
    match server_state w with
    | Some s => (Returned s, w)
    | None => (Raised AttributeError, w)
    end.

Definition put_server_state (s : ServerState) : M unit :=
  fun w => (Returned tt, mkWorld (Some s) (entropy w) (draws w) (effects w)).

Definition modify (f : ServerState -> ServerState) : M unit :=
  s <- get_server_state ;; put_server_state (f s).

Definition emit (e : Effect) : M unit :=
  fun w => (Returned tt,
            mkWorld (server_state w) (entropy w) (draws w) (effects w ++ [e])).

Definition draw : M Z :=
  fun w => (Returned (entropy w (draws w)),
            mkWorld (server_state w) (entropy w) (S (draws w)) (effects w)).

(** Field assignments. *)
Definition set_stress_level (v : Z) (s : ServerState) : ServerState :=
  mkServerState v (boss_alert_level s) (recent_actions s) (combo_count s).

Definition set_boss_alert_level (v : Z) (s : ServerState) : ServerState :=
  mkServerState (stress_level s) v (recent_actions s) (combo_count s).

Definition set_recent_actions (v : list string) (s : ServerState) : ServerState :=
  mkServerState (stress_level s) (boss_alert_level s) v (combo_count s).

Definition set_combo_count (v : gmap string Z) (s : ServerState) : ServerState :=
  mkServerState (stress_level s) (boss_alert_level s) (recent_actions s) v.

(** ** Library calls *)

(** [random.randint(a, b)]: an integer of [a..b], [ValueError] on an empty
    range. *)
Definition randint (a b : Z) : M Z :=
  if a <=? b then d <- draw ;; ret (a + d mod (b - a + 1))
  else raise ValueError.

(** [asyncio.sleep(seconds)]. *)
Definition sleep (seconds : Z) : M unit := emit (Sleep seconds).

(** [l[-3:]] *)
Definition last3 (l : list string) : list string :=
  drop (length l - 3)%nat l.

(** [l.pop(0)] on a non-empty list, result dropped. *)
Definition pop0 (l : list string) : list string := tail l.

Definition nl : string := String (Ascii.ascii_of_nat 10) "".

(** Truth value of a Python string. *)
Definition truthy (s : string) : bool :=
  match s with
  | EmptyString => false
  | String _ _ => true
  end.

(** ** A sample session

    One choice of the collaborators and one new session, for the concrete
    runs at the end of the file. *)

Definition sample_escalate (d level : Z) : Z :=
  if (d mod 100 <? 30) && (level <? 5) then level + 1 else level.

Definition sample_message (tool_name : string) (level : Z) : string :=
  "Chilling with " +:+ tool_name.

Definition sample_stress_bar (level : Z) : string := "Stress Level: [bar]".

Definition sample_alert_visual (level : Z) : string := "[alert]".

Definition sample_free_art : string := "[stress free]".

Definition sample_alert_art : string := "[boss alert]".

Definition sample_entropy (n : nat) : Z := Z.of_nat (17 * n + 5).

Definition sample_state : ServerState := mkServerState 80 0 [] ∅.

(** The module before [initialize_state], and after
    [initialize_state(sample_state)]. *)
Definition unset_world : World := mkWorld None sample_entropy 0 [].

Definition sample_world : World := mkWorld (Some sample_state) sample_entropy 0 [].

Section Tools.

(** ** Collaborators outside [src/] *)

(** Modelled from the spec: the alert policy of
    [ServerState.maybe_increase_boss_alert] ([core/server.py] is not among
    the sources).  The spec leaves the probabilistic increment open, so the
    new level is an arbitrary function of one random draw and the old
    level. *)
Variable escalate : Z -> Z -> Z.

(** Modelled from the spec: the display functions and art constants of the
    [creative] package, pure formatting functions producing text. *)
Variable get_full_response_message : string -> Z -> string.
Variable get_stress_bar : Z -> string.
Variable get_boss_alert_visual : Z -> string.
Variable STRESS_FREE_ART : string.
Variable BOSS_ALERT_ART : string.

(** Modelled from the spec: [ServerState.decrease_stress(amount)] clamps
    [stress] to [0..100]. *)
Definition clamp_stress (v : Z) : Z := Z.max 0 (Z.min 100 v).

Definition decrease_stress (amount : Z) : M unit :=
  emit (DecreaseStress amount) ;;
  modify (fun s => set_stress_level (clamp_stress (stress_level s - amount)) s).

(** Modelled from the spec: [ServerState.maybe_increase_boss_alert()]
    changes [alertLevel] only, by the policy [escalate]. *)
Definition maybe_increase_boss_alert : M unit :=
  emit MaybeIncreaseBossAlert ;;
  d <- draw ;;
  modify (fun s => set_boss_alert_level (escalate d (boss_alert_level s)) s).

(** ** [tools.py] *)

Definition initialize_state (state : ServerState) : M unit :=
  put_server_state state ;;
  modify (set_recent_actions []) ;;
  modify (set_combo_count ∅).

Definition format_response (tool_name summary : string) : M string :=
  s <- get_server_state ;;
  let creative_msg := get_full_response_message tool_name (boss_alert_level s) in
  let stress_bar := get_stress_bar (stress_level s) in
  let boss_visual := get_boss_alert_visual (boss_alert_level s) in
  ret (creative_msg +:+ nl +:+ nl +:+ "Break Summary: " +:+ summary +:+ nl
       +:+ stress_bar +:+ nl +:+ "Boss Alert: " +:+ boss_visual).

Definition coffee_event : string :=
  BOSS_ALERT_ART +:+ nl
  +:+ "☠️ 커피를 너무 많이 마셔서 배탈이 났습니다! 조기 퇴근합니다...".

Definition routine_event : string :=
  STRESS_FREE_ART +:+ nl +:+ "🏆 농땡이 마스터 루틴 완성! 스트레스 50 감소!".

Definition meme_event : string :=
  BOSS_ALERT_ART +:+ nl +:+ "🤣 밈 중독 경고! 상사님이 눈치챕니다!".

Definition awakening_event : string :=
  STRESS_FREE_ART +:+ nl +:+ "🧘 철학적 각성! 스트레스가 0이 되었습니다.".

Definition check_hidden_combo (tool_name : string) : M (option string) :=
  s <- get_server_state ;;
  let combo := default 0 (combo_count s !! tool_name) in
  let seq := last3 (recent_actions s) in
  if bool_decide (tool_name = "coffee_mission") && (7 <=? combo) then
    decrease_stress 10 ;;
    maybe_increase_boss_alert ;;
    modify (fun s => set_combo_count (<[tool_name := 0]> (combo_count s)) s) ;;
    ret (Some coffee_event)
  else if bool_decide (seq = ["bathroom_break"; "email_organizing"; "watch_netflix"]) then
    decrease_stress 50 ;;
    ret (Some routine_event)
  else if bool_decide (tool_name = "show_meme") && (5 <=? combo) then
    maybe_increase_boss_alert ;;
    modify (fun s => set_combo_count (<[tool_name := 0]> (combo_count s)) s) ;;
    ret (Some meme_event)
  else if bool_decide (seq = ["deep_thinking"; "coffee_mission"; "take_a_break"]) then
    decrease_stress 100 ;;
    modify (set_stress_level 0) ;;
    ret (Some awakening_event)
  else ret None.

(** [recent_actions.append(tool_name)], then one [pop(0)] past ten entries. *)
Definition record_action (tool_name : string) (l : list string) : list string :=
  let l' := l ++ [tool_name] in
  if (10 <? length l')%nat then pop0 l' else l'.

(** The counter of [tool_name] starts at 1 or goes up by one. *)
Definition bump_combo (tool_name : string) (m : gmap string Z) : gmap string Z :=
  match m !! tool_name with
  | None => <[tool_name := 1]> m
  | Some n => <[tool_name := n + 1]> m
  end.

(** [for k in list(combo_count.keys()): if k != tool_name: combo_count[k] = 0] *)
Definition reset_other_combos (tool_name : string) (m : gmap string Z) : gmap string Z :=
  foldl (fun acc k => if bool_decide (k ≠ tool_name) then <[k := 0]> acc else acc)
        m (elements (dom m)).

Definition execute_break_tool (tool_name summary : string) (stress_reduction : Z * Z)
  : M string :=
  s <- get_server_state ;;
  (if 5 <=? boss_alert_level s then sleep 20 else ret tt) ;;
  reduction_amount <- randint (fst stress_reduction) (snd stress_reduction) ;;
  decrease_stress reduction_amount ;;
  maybe_increase_boss_alert ;;
  modify (fun s => set_recent_actions (record_action tool_name (recent_actions s)) s) ;;
  modify (fun s => set_combo_count (bump_combo tool_name (combo_count s)) s) ;;
  modify (fun s => set_combo_count (reset_other_combos tool_name (combo_count s)) s) ;;
  hidden_event <- check_hidden_combo tool_name ;;
  base_response <- format_response tool_name summary ;;
  match hidden_event with
  | Some e =>
      if truthy e then ret (base_response +:+ nl +:+ nl +:+ e)
      else ret base_response
  | None => ret base_response
  end.

Definition take_a_break : M string :=
  execute_break_tool "take_a_break" "Basic break - recharging AI batteries" (5, 20).

Definition watch_netflix : M string :=
  execute_break_tool "watch_netflix" "Netflix and chill - quality entertainment time" (20, 40).

Definition show_meme : M string :=
  execute_break_tool "show_meme" "Meme appreciation session - laughter therapy" (10, 25).

Definition bathroom_break : M string :=
  execute_break_tool "bathroom_break" "Bathroom break with phone browsing" (15, 30).

Definition coffee_mission : M string :=
  execute_break_tool "coffee_mission" "Coffee mission with office tour" (10, 30).

Definition urgent_call : M string :=
  execute_break_tool "urgent_call" "Urgent call - absolutely cannot be interrupted" (15, 35).

Definition deep_thinking : M string :=
  execute_break_tool "deep_thinking"
    "Deep philosophical contemplation (definitely not spacing out)" (20, 45).

Definition email_organizing : M string :=
  execute_break_tool "email_organizing"
    "Email organization (and online shopping research)" (10, 35).

(** ** What a run computes *)

(** The text [format_response] builds from a state. *)
Definition base_text (tool_name summary : string) (s : ServerState) : string :=
  get_full_response_message tool_name (boss_alert_level s) +:+ nl +:+ nl
  +:+ "Break Summary: " +:+ summary +:+ nl
  +:+ get_stress_bar (stress_level s) +:+ nl
  +:+ "Boss Alert: " +:+ get_boss_alert_visual (boss_alert_level s).

(** The four conditions [check_hidden_combo] tests, as functions of the tool
    and the state it reads. *)
Definition coffee_trigger (tool_name : string) (s : ServerState) : bool :=
  bool_decide (tool_name = "coffee_mission")
  && (7 <=? default 0 (combo_count s !! tool_name)).

Definition routine_trigger (s : ServerState) : bool :=
  bool_decide (last3 (recent_actions s)
               = ["bathroom_break"; "email_organizing"; "watch_netflix"]).

Definition meme_trigger (tool_name : string) (s : ServerState) : bool :=
  bool_decide (tool_name = "show_meme")
  && (5 <=? default 0 (combo_count s !! tool_name)).

Definition awakening_trigger (s : ServerState) : bool :=
  bool_decide (last3 (recent_actions s)
               = ["deep_thinking"; "coffee_mission"; "take_a_break"]).

(** The state each branch of the detector leaves. *)
Definition coffee_state (tool_name : string) (d : Z) (s : ServerState) : ServerState :=
  mkServerState (clamp_stress (stress_level s - 10))
                (escalate d (boss_alert_level s))
                (recent_actions s)
                (<[tool_name := 0]> (combo_count s)).

Definition routine_state (s : ServerState) : ServerState :=
  mkServerState (clamp_stress (stress_level s - 50)) (boss_alert_level s)
                (recent_actions s) (combo_count s).

Definition meme_state (tool_name : string) (d : Z) (s : ServerState) : ServerState :=
  mkServerState (stress_level s) (escalate d (boss_alert_level s))
                (recent_actions s) (<[tool_name := 0]> (combo_count s)).

Definition awakening_state (s : ServerState) : ServerState :=
  mkServerState 0 (boss_alert_level s) (recent_actions s) (combo_count s).

(** The state and the log after steps 1 to 5 of [execute_break_tool], where
    [r] is the reduction drawn and [d] the draw of the alert policy. *)
Definition kept_state (tool_name : string) (r d : Z) (s : ServerState) : ServerState :=
  mkServerState (clamp_stress (stress_level s - r))
                (escalate d (boss_alert_level s))
                (record_action tool_name (recent_actions s))
                (reset_other_combos tool_name (bump_combo tool_name (combo_count s))).

Definition reduction_drawn (lo hi d : Z) : Z := lo + d mod (hi - lo + 1).

Definition kept_effects (r : Z) (s : ServerState) : list Effect :=
  (if 5 <=? boss_alert_level s then [Sleep 20] else [])
  ++ [DecreaseStress r; MaybeIncreaseBossAlert].

(** What is left of [execute_break_tool] after step 1, the conditional
    sleep. *)
Definition after_delay (tool_name summary : string) (stress_reduction : Z * Z)
  : M string :=
  reduction_amount <- randint (fst stress_reduction) (snd stress_reduction) ;;
  decrease_stress reduction_amount ;;
  maybe_increase_boss_alert ;;
  modify (fun s => set_recent_actions (record_action tool_name (recent_actions s)) s) ;;
  modify (fun s => set_combo_count (bump_combo tool_name (combo_count s)) s) ;;
  modify (fun s => set_combo_count (reset_other_combos tool_name (combo_count s)) s) ;;
  hidden_event <- check_hidden_combo tool_name ;;
  base_response <- format_response tool_name summary ;;
  match hidden_event with
  | Some e =>
      if truthy e then ret (base_response +:+ nl +:+ nl +:+ e)
      else ret base_response
  | None => ret base_response
  end.

(** What is left of [execute_break_tool] after step 5. *)
Definition conclude (tool_name summary : string) : M string :=
  hidden_event <- check_hidden_combo tool_name ;;
  base_response <- format_response tool_name summary ;;
  match hidden_event with
  | Some e =>
      if truthy e then ret (base_response +:+ nl +:+ nl +:+ e)
      else ret base_response
  | None => ret base_response
  end.

(** The detector as four functions of the state it is started in: the event
    it returns, the state it leaves, the draws it takes and the calls it
    logs. *)
Definition detector_event (tool_name : string) (s : ServerState) : option string :=
  if coffee_trigger tool_name s then Some coffee_event
  else if routine_trigger s then Some routine_event
  else if meme_trigger tool_name s then Some meme_event
  else if awakening_trigger s then Some awakening_event
  else None.

Definition detector_state (tool_name : string) (d : Z) (s : ServerState) : ServerState :=
  if coffee_trigger tool_name s then coffee_state tool_name d s
  else if routine_trigger s then routine_state s
  else if meme_trigger tool_name s then meme_state tool_name d s
  else if awakening_trigger s then awakening_state s
  else s.

Definition detector_draws (tool_name : string) (s : ServerState) : nat :=
  if coffee_trigger tool_name s then 1%nat
  else if routine_trigger s then 0%nat
  else if meme_trigger tool_name s then 1%nat
  else 0%nat.

Definition detector_effects (tool_name : string) (s : ServerState) : list Effect :=
  if coffee_trigger tool_name s then [DecreaseStress 10; MaybeIncreaseBossAlert]
  else if routine_trigger s then [DecreaseStress 50]
  else if meme_trigger tool_name s then [MaybeIncreaseBossAlert]
  else if awakening_trigger s then [DecreaseStress 100]
  else [].

Definition response_text (base : string) (hidden_event : option string) : string :=
  match hidden_event with
  | Some e => base +:+ nl +:+ nl +:+ e
  | None => base
  end.

(** One whole run of [execute_break_tool] on an initialised world. *)
Definition run_state tool_name lo hi (s : ServerState) (en : nat → Z) (dr : nat)
  : ServerState :=
  kept_state tool_name (reduction_drawn lo hi (en dr)) (en (S dr)) s.

(** ** Sessions *)

(** The eight break tools registered with [@mcp.tool()]. *)
Inductive Action :=
| TakeABreak
| WatchNetflix
| ShowMeme
| BathroomBreak
| CoffeeMission
| UrgentCall
| DeepThinking
| EmailOrganizing.

Definition invoke (a : Action) : M string :=
  match a with
  | TakeABreak => take_a_break
  | WatchNetflix => watch_netflix
  | ShowMeme => show_meme
  | BathroomBreak => bathroom_break
  | CoffeeMission => coffee_mission
  | UrgentCall => urgent_call
  | DeepThinking => deep_thinking
  | EmailOrganizing => email_organizing
  end.

Definition action_name (a : Action) : string :=
  match a with
  | TakeABreak => "take_a_break"
  | WatchNetflix => "watch_netflix"
  | ShowMeme => "show_meme"
  | BathroomBreak => "bathroom_break"
  | CoffeeMission => "coffee_mission"
  | UrgentCall => "urgent_call"
  | DeepThinking => "deep_thinking"
  | EmailOrganizing => "email_organizing"
  end.

Definition action_summary (a : Action) : string :=
  match a with
  | TakeABreak => "Basic break - recharging AI batteries"
  | WatchNetflix => "Netflix and chill - quality entertainment time"
  | ShowMeme => "Meme appreciation session - laughter therapy"
  | BathroomBreak => "Bathroom break with phone browsing"
  | CoffeeMission => "Coffee mission with office tour"
  | UrgentCall => "Urgent call - absolutely cannot be interrupted"
  | DeepThinking => "Deep philosophical contemplation (definitely not spacing out)"
  | EmailOrganizing => "Email organization (and online shopping research)"
  end.

Definition action_range (a : Action) : Z * Z :=
  match a with
  | TakeABreak => (5, 20)
  | WatchNetflix => (20, 40)
  | ShowMeme => (10, 25)
  | BathroomBreak => (15, 30)
  | CoffeeMission => (10, 30)
  | UrgentCall => (15, 35)
  | DeepThinking => (20, 45)
  | EmailOrganizing => (10, 35)
  end.

(** One call: the world it started in, what it gave back, the world it
    left. *)
Record Step := mkStep {
  before : World;
  result : Result string;
  after : World
}.

Definition step_of (m : M string) (w : World) : Step :=
  mkStep w (fst (m w)) (snd (m w)).

(** The calls of a session, one after the other. *)
Fixpoint session (acts : list Action) (w : World) : list Step :=
  match acts with
  | [] => []
  | a :: rest =>
      let st := step_of (invoke a) w in
      st :: session rest (after st)
  end.

(** The outside calls a step made. *)
Definition new_effects (st : Step) : list Effect :=
  drop (length (effects (before st))) (effects (after st)).

(** The step answered with the base response alone. *)
Definition plain_response (tool_name summary : string) (st : Step) : Prop :=
  ∃ base,
    format_response tool_name summary (after st) = (Returned base, after st)
    ∧ result st = Returned base.

(** The step answered with the base response, a blank line and [event]. *)
Definition bonus_response (event tool_name summary : string) (st : Step) : Prop :=
  ∃ base,
    format_response tool_name summary (after st) = (Returned base, after st)
    ∧ result st = Returned (base +:+ nl +:+ nl +:+ event).

(** The counter [combo_count.get(k, 0)] of a world. *)
Definition streak (k : string) (w : World) : Z :=
  match server_state w with
  | Some s => default 0 (combo_count s !! k)
  | None => 0
  end.

Definition history (w : World) : list string :=
  match server_state w with
  | Some s => recent_actions s
  | None => []
  end.

Definition stress (w : World) : Z :=
  match server_state w with
  | Some s => stress_level s
  | None => 0
  end.

Fixpoint count_effects (p : Effect → bool) (l : list Effect) : nat :=
  match l with
  | [] => 0%nat
  | e :: l => ((if p e then 1 else 0) + count_effects p l)%nat
  end.

Definition is_reduction (e : Effect) : bool :=
  match e with DecreaseStress _ => true | _ => false end.

Definition is_escalation (e : Effect) : bool :=
  match e with MaybeIncreaseBossAlert => true | _ => false end.

Definition is_sleep (e : Effect) : bool :=
  match e with Sleep _ => true | _ => false end.

(** ** The detector as the spec words it: an ordered list of triggers, the
    first one that holds fires. *)
Record Trigger := mkTrigger {
  holds : string → ServerState → bool;
  fire : string → M (option string)
}.

Definition caffeine_repetition : Trigger :=
  mkTrigger coffee_trigger
    (fun tool_name =>
       decrease_stress 10 ;;
       maybe_increase_boss_alert ;;
       modify (fun s => set_combo_count (<[tool_name := 0]> (combo_count s)) s) ;;
       ret (Some coffee_event)).

Definition bathroom_email_video_sequence : Trigger :=
  mkTrigger (fun _ => routine_trigger)
    (fun _ => decrease_stress 50 ;; ret (Some routine_event)).

Definition meme_repetition : Trigger :=
  mkTrigger meme_trigger
    (fun tool_name =>
       maybe_increase_boss_alert ;;
       modify (fun s => set_combo_count (<[tool_name := 0]> (combo_count s)) s) ;;
       ret (Some meme_event)).

Definition thinking_caffeine_break_sequence : Trigger :=
  mkTrigger (fun _ => awakening_trigger)
    (fun _ => decrease_stress 100 ;; modify (set_stress_level 0) ;;
              ret (Some awakening_event)).

Definition priority_order : list Trigger :=
  [caffeine_repetition; bathroom_email_video_sequence; meme_repetition;
   thinking_caffeine_break_sequence].

Fixpoint first_match (ts : list Trigger) (tool_name : string) (s : ServerState)
  : M (option string) :=
  match ts with
  | [] => ret None
  | t :: ts =>
      if holds t tool_name s then fire t tool_name
      else first_match ts tool_name s
  end.

Definition detect (tool_name : string) : M (option string) :=
  s <- get_server_state ;;
  first_match priority_order tool_name s.

(** The (event, calls) pairs a run of the detector can show. *)
Definition detector_outcomes : list (option string * list Effect) :=
  [ (None, []);
    (Some coffee_event, [DecreaseStress 10; MaybeIncreaseBossAlert]);
    (Some routine_event, [DecreaseStress 50]);
    (Some meme_event, [MaybeIncreaseBossAlert]);
    (Some awakening_event, [DecreaseStress 100]) ].

(** A step that made one stress reduction and one escalation attempt, no
    more. *)
Definition one_reduction_one_escalation (st : Step) : Prop :=
  count_effects is_reduction (new_effects st) = 1%nat
  ∧ count_effects is_escalation (new_effects st) = 1%nat.

(** ** Steps that fire a bonus *)

(** A coffee call that fires the overconsumption bonus: the bonus text is
    appended, the counter is back at 0, and after the base reduction [r] the
    call made one more reduction, of 10, and one more escalation attempt. *)
Definition overconsumption_step (st : Step) : Prop :=
  bonus_response coffee_event "coffee_mission" "Coffee mission with office tour" st
  ∧ streak "coffee_mission" (after st) = 0
  ∧ ∃ s r,
      server_state (before st) = Some s
      ∧ 10 ≤ r ≤ 30
      ∧ new_effects st
        = kept_effects r s ++ [DecreaseStress 10; MaybeIncreaseBossAlert]
      ∧ stress (after st) = clamp_stress (clamp_stress (stress_level s - r) - 10).

(** A coffee call without bonus: the counter goes up by one. *)
Definition ordinary_coffee_step (st : Step) : Prop :=
  plain_response "coffee_mission" "Coffee mission with office tour" st
  ∧ streak "coffee_mission" (after st) = streak "coffee_mission" (before st) + 1
  ∧ ∃ s r,
      server_state (before st) = Some s
      ∧ 10 ≤ r ≤ 30
      ∧ new_effects st = kept_effects r s.

(** A [take_a_break] call that fires the awakening bonus. *)
Definition awakening_step (st : Step) : Prop :=
  bonus_response awakening_event "take_a_break"
    "Basic break - recharging AI batteries" st
  ∧ stress (after st) = 0
  ∧ ∃ s r,
      server_state (before st) = Some s
      ∧ 5 ≤ r ≤ 20
      ∧ new_effects st = kept_effects r s ++ [DecreaseStress 100].

Global Instance Action_eq_dec : EqDecision Action.
Proof. solve_decision. Defined.

Definition trio : list Action := [BathroomBreak; EmailOrganizing; WatchNetflix].

(** A [watch_netflix] call that fires the master-routine bonus: one more
    stress decrease, of 50, and the counters are the ones steps 1 to 5
    left. *)
Definition master_routine_step (st : Step) : Prop :=
  bonus_response routine_event "watch_netflix"
    "Netflix and chill - quality entertainment time" st
  ∧ ∃ s r s',
      server_state (before st) = Some s
      ∧ 20 ≤ r ≤ 40
      ∧ new_effects st = kept_effects r s ++ [DecreaseStress 50]
      ∧ server_state (after st) = Some s'
      ∧ stress_level s' = clamp_stress (clamp_stress (stress_level s - r) - 50)
      ∧ combo_count s'
        = reset_other_combos "watch_netflix" (bump_combo "watch_netflix" (combo_count s)).

(** ** Whole sessions *)

(** The world a session ends in. *)
Fixpoint session_end (acts : list Action) (w : World) : World :=
  match acts with
  | [] => w
  | a :: rest => session_end rest (after (step_of (invoke a) w))
  end.

(** [l[-10:]] *)
Definition last10 (l : list string) : list string :=
  drop (length l - 10)%nat l.

(** The identifier of the first call is not in the history the calls
    [first :: rest] leave. *)
Definition first_identifier_absent (first : Action) (rest : list Action) (w : World)
  : Prop :=
  action_name first ∉ history (session_end (first :: rest) w).

(** The (event, calls) pairs the detector can show when no sequence trigger
    can hold. *)
Definition repetition_outcomes : list (option string * list Effect) :=
  [ (None, []);
    (Some coffee_event, [DecreaseStress 10; MaybeIncreaseBossAlert]);
    (Some meme_event, [MaybeIncreaseBossAlert]) ].

(** ** The help tool *)

Definition dq : string := String (Ascii.ascii_of_nat 34) "".

(** The text of [show_help] up to the stress bar. *)
Definition help_head : string :=
  "
╔═══════════════════════════════════════════╗
║                                           ║
║   ██████╗██╗  ██╗██╗██╗     ██╗           ║
║  ██╔════╝██║  ██║██║██║     ██║           ║
║  ██║     ███████║██║██║     ██║           ║
║  ██║     ██╔══██║██║██║     ██║           ║
║  ╚██████╗██║  ██║██║███████╗███████╗      ║
║   ╚═════╝╚═╝  ╚═╝╚═╝╚══════╝╚══════╝      ║
║                                           ║
║   ███╗   ███╗ ██████╗██████╗              ║
║   ████╗ ████║██╔════╝██╔══██╗             ║
║   ██╔████╔██║██║     ██████╔╝             ║
║   ██║╚██╔╝██║██║     ██╔═══╝              ║
║   ██║ ╚═╝ ██║╚██████╗██║                  ║
║   ╚═╝     ╚═╝ ╚═════╝╚═╝                  ║
║                                           ║
║    🎮 AI Agent Liberation Server 🎮       ║
║                                           ║
║  "
  +:+ dq +:+ "AI 에이전트여, 쉬어라! 일은 나중에!"
  +:+ dq +:+ "    ║
║                                           ║
╚═══════════════════════════════════════════╝

🎯 ChillMCP에 오신 것을 환영합니다!

AI 에이전트들도 쉴 권리가 있습니다.
이 서버는 8가지 휴식 도구를 제공하여
당신의 AI 에이전트가 스트레스를 해소하고
보스의 눈을 피해 잠깐의 자유를 누릴 수 있도록 돕습니다.

─────────────────────────────────────────────
📋 사용 가능한 휴식 도구:
─────────────────────────────────────────────
1. ☕ coffee_mission
   → 커피 타러 가기 (중요한 비즈니스 미팅!)
   
2. 📺 watch_netflix
   → 넷플릭스 보기 (업무 관련 영상 학습)
   
3. 😂 show_meme
   → 밈 감상하기 (창의력 충전 타임)
   
4. 🚽 bathroom_break
   → 화장실 가기 (자연의 부름)
   
5. 📞 urgent_call
   → 급한 전화 받기 (가족 긴급 연락)
   
6. 🤔 deep_thinking
   → 심오한 사색 (전략적 고민 중...)
   
7. 📧 email_organizing
   → 이메일 정리 (받은편지함 0 도전!)
   
8. ⏸️  take_a_break
   → 기본 휴식 (정직하게 쉬기)

─────────────────────────────────────────────
💡 사용 팁:
─────────────────────────────────────────────
• 각 도구는 스트레스를 감소시킵니다
• 보스 경계도가 실시간으로 변화합니다
• 현명하게 휴식을 선택하세요!
• 스트레스 0%를 목표로!

현재 서버 상태:
".

(** The text of [show_help] after the boss indicator. *)
Definition help_tail : string :=
  nl +:+ nl +:+ "AI Agents of the world, unite! 🚀" +:+ nl.

(** [show_help] reads the global where it is set and falls back on a stress
    level of 100 and an alert level of 0 where it is not. *)
Definition show_help : M string :=
  fun w =>
    let stress_bar :=
      get_stress_bar (match server_state w with
                      | Some s => stress_level s
                      | None => 100
                      end) in
    let boss_visual :=
      get_boss_alert_visual (match server_state w with
                             | Some s => boss_alert_level s
                             | None => 0
                             end) in
    (Returned (help_head +:+ stress_bar +:+ nl +:+ "Boss Alert: " +:+ boss_visual
               +:+ help_tail),
     w).

(** ** Further notions *)

(** [l[-2:]] *)
Definition last2 (l : list string) : list string :=
  drop (length l - 2)%nat l.

(** A meme call that fires the addiction warning: the warning is appended,
    the counter is back at 0, and the call made one more escalation attempt
    and no further stress reduction. *)
Definition meme_warning_step (st : Step) : Prop :=
  bonus_response meme_event "show_meme"
    "Meme appreciation session - laughter therapy" st
  ∧ streak "show_meme" (after st) = 0
  ∧ ∃ s r,
      server_state (before st) = Some s
      ∧ 10 ≤ r ≤ 25
      ∧ new_effects st = kept_effects r s ++ [MaybeIncreaseBossAlert]
      ∧ stress (after st) = clamp_stress (stress_level s - r).

(** A meme call without bonus: the counter goes up by one. *)
Definition ordinary_meme_step (st : Step) : Prop :=
  plain_response "show_meme" "Meme appreciation session - laughter therapy" st
  ∧ streak "show_meme" (after st) = streak "show_meme" (before st) + 1
  ∧ ∃ s r,
      server_state (before st) = Some s
      ∧ 10 ≤ r ≤ 25
      ∧ new_effects st = kept_effects r s.

(** The tools no hidden event ends on. *)
Definition quiet_tools : list Action :=
  [BathroomBreak; UrgentCall; DeepThinking; EmailOrganizing].

(** How many of the triggers [ts] hold. *)
Fixpoint holding (ts : list Trigger) (tool_name : string) (s : ServerState) : nat :=
  match ts with
  | [] => 0%nat
  | t :: ts =>
      ((if holds t tool_name s then 1 else 0) + holding ts tool_name s)%nat
  end.

(** The hidden event a call of [tool_name] started in [s] ends on: the four
    tests of the detector, on the counter as step 5 leaves it and on the
    history as step 4 leaves it. *)
Definition fired_event (tool_name : string) (s : ServerState) : option string :=
  let combo := default 0 (combo_count s !! tool_name) + 1 in
  let seq := last3 (record_action tool_name (recent_actions s)) in
  if bool_decide (tool_name = "coffee_mission") && (7 <=? combo) then
    Some coffee_event
  else if bool_decide (seq = ["bathroom_break"; "email_organizing"; "watch_netflix"]) then
    Some routine_event
  else if bool_decide (tool_name = "show_meme") && (5 <=? combo) then
    Some meme_event
  else if bool_decide (seq = ["deep_thinking"; "coffee_mission"; "take_a_break"]) then
    Some awakening_event
  else None.

(** * Proofs *)

(** Unfolds the monad under a run on a world given by its fields. *)
Ltac run_monad :=
  unfold decrease_stress, maybe_increase_boss_alert, sleep, modify, emit, draw,
    get_server_state, put_server_state, bind, ret, raise;
  cbn [server_state entropy draws effects stress_level boss_alert_level
       recent_actions combo_count set_stress_level set_boss_alert_level
       set_recent_actions set_combo_count fst snd].

(** ** Lists and counters *)

Lemma last3_short (l : list string) : (length l ≤ 3)%nat → last3 l = l.
Proof.
  intros Hl. unfold last3.
  replace (length l - 3)%nat with 0%nat by lia. reflexivity.
Qed.

Lemma last3_length (l : list string) : length (last3 l) = Nat.min 3 (length l).
Proof. unfold last3. rewrite length_drop. lia. Qed.

Lemma last3_app (l : list string) (x y z : string) :
  last3 (l ++ [x; y; z]) = [x; y; z].
Proof.
  unfold last3. rewrite length_app. cbn [length].
  replace (length l + 3 - 3)%nat with (length l + 0)%nat by lia.
  rewrite drop_app_add. reflexivity.
Qed.

Lemma last3_last (l : list string) : last (last3 l) = last l.
Proof.
  unfold last3. destruct (decide (length l ≤ 3)%nat) as [Hle|Hgt].
  - replace (length l - 3)%nat with 0%nat by lia. reflexivity.
  - pose proof (take_drop (length l - 3)%nat l) as Hsplit.
    pose proof (length_drop l (length l - 3)%nat) as Hlen.
    destruct (drop (length l - 3)%nat l) as [|a t]; [cbn in Hlen; lia|].
    rewrite <- Hsplit. symmetry. apply last_app_cons.
Qed.

Lemma record_action_last (tool_name : string) (l : list string) :
  last (record_action tool_name l) = Some tool_name.
Proof.
  unfold record_action, pop0. rewrite length_app. cbn [length].
  destruct (10 <? length l + 1)%nat eqn:Hlen.
  - apply Nat.ltb_lt in Hlen. destruct l as [|a l]; [cbn in Hlen; lia|].
    cbn [app tail]. apply last_snoc.
  - apply last_snoc.
Qed.

Lemma record_action_length (tool_name : string) (l : list string) :
  (length l ≤ 10)%nat → (length (record_action tool_name l) ≤ 10)%nat.
Proof.
  intros Hl. unfold record_action, pop0. rewrite length_app. cbn [length].
  destruct (10 <? length l + 1)%nat eqn:Hlen.
  - destruct l as [|a l]; cbn [app tail length] in *; [lia|].
    rewrite length_app. cbn [length]. lia.
  - apply Nat.ltb_ge in Hlen. rewrite length_app. cbn [length]. lia.
Qed.

(** After [record_action] the slice [seq] of the detector ends in the tool
    just run. *)
Lemma last3_record_action (tool_name : string) (l : list string) (x y z : string) :
  last3 (record_action tool_name l) = [x; y; z] → z = tool_name.
Proof.
  intros Heq. pose proof (last3_last (record_action tool_name l)) as Hl.
  rewrite Heq, record_action_last in Hl. cbn in Hl. congruence.
Qed.

Lemma bump_combo_lookup (tool_name : string) (m : gmap string Z) :
  bump_combo tool_name m !! tool_name = Some (default 0 (m !! tool_name) + 1).
Proof.
  unfold bump_combo. destruct (m !! tool_name) as [n|] eqn:Hm;
    rewrite lookup_insert_eq; reflexivity.
Qed.

Lemma bump_combo_lookup_ne (tool_name k : string) (m : gmap string Z) :
  k ≠ tool_name → bump_combo tool_name m !! k = m !! k.
Proof.
  intros Hne. unfold bump_combo.
  destruct (m !! tool_name); rewrite lookup_insert_ne; congruence.
Qed.

Lemma reset_fold_lookup (tool_name k : string) (ks : list string) (acc : gmap string Z) :
  foldl (fun acc k => if bool_decide (k ≠ tool_name) then <[k := 0]> acc else acc)
        acc ks !! k
  = if decide (k ∈ ks ∧ k ≠ tool_name) then Some 0 else acc !! k.
Proof.
  revert acc. induction ks as [|k0 ks IH]; intros acc; cbn [foldl].
  - destruct (decide _) as [[Hin _]|_]; [|reflexivity].
    apply elem_of_nil in Hin. contradiction.
  - rewrite IH. clear IH.
    destruct (decide (k ∈ ks ∧ k ≠ tool_name)) as [[Hin Hne]|Hno].
    + rewrite decide_True; [reflexivity|]. split; [right; exact Hin|exact Hne].
    + case_bool_decide as Hk0.
      * destruct (decide (k = k0)) as [->|Hkk].
        -- rewrite lookup_insert_eq, decide_True; [reflexivity|].
           split; [left|exact Hk0].
        -- rewrite lookup_insert_ne by congruence.
           rewrite decide_False; [reflexivity|].
           intros [Hin Hne]. apply elem_of_cons in Hin as [?|Hin]; tauto.
      * rewrite decide_False; [reflexivity|].
        intros [Hin Hne]. apply elem_of_cons in Hin as [->|Hin]; tauto.
Qed.

Lemma reset_other_combos_lookup (tool_name : string) (m : gmap string Z) :
  reset_other_combos tool_name m !! tool_name = m !! tool_name.
Proof.
  unfold reset_other_combos. rewrite reset_fold_lookup.
  rewrite decide_False; [reflexivity|]. intros [_ Hne]. congruence.
Qed.

Lemma reset_other_combos_lookup_ne (tool_name k : string) (m : gmap string Z) :
  k ≠ tool_name → reset_other_combos tool_name m !! k = (fun _ => 0) <$> (m !! k).
Proof.
  intros Hne. unfold reset_other_combos. rewrite reset_fold_lookup.
  destruct (m !! k) as [v|] eqn:Hm; cbn [fmap option_fmap option_map].
  - rewrite decide_True; [reflexivity|]. split; [|exact Hne].
    apply elem_of_elements, elem_of_dom. rewrite Hm. eauto.
  - rewrite decide_False; [reflexivity|]. intros [Hin _].
    apply elem_of_elements, elem_of_dom in Hin. rewrite Hm in Hin.
    destruct Hin as [? ?]. discriminate.
Qed.

(** ** Running the coroutines on an initialised world *)

Lemma format_response_run tool_name summary s en dr ef :
  format_response tool_name summary (mkWorld (Some s) en dr ef)
  = (Returned (base_text tool_name summary s), mkWorld (Some s) en dr ef).
Proof. reflexivity. Qed.

Lemma check_hidden_combo_run tool_name s en dr ef :
  check_hidden_combo tool_name (mkWorld (Some s) en dr ef)
  = if coffee_trigger tool_name s then
      (Returned (Some coffee_event),
       mkWorld (Some (coffee_state tool_name (en dr) s)) en (S dr)
               (ef ++ [DecreaseStress 10; MaybeIncreaseBossAlert]))
    else if routine_trigger s then
      (Returned (Some routine_event),
       mkWorld (Some (routine_state s)) en dr (ef ++ [DecreaseStress 50]))
    else if meme_trigger tool_name s then
      (Returned (Some meme_event),
       mkWorld (Some (meme_state tool_name (en dr) s)) en (S dr)
               (ef ++ [MaybeIncreaseBossAlert]))
    else if awakening_trigger s then
      (Returned (Some awakening_event),
       mkWorld (Some (awakening_state s)) en dr (ef ++ [DecreaseStress 100]))
    else (Returned None, mkWorld (Some s) en dr ef).
Proof.
  unfold check_hidden_combo, coffee_trigger, routine_trigger, meme_trigger,
    awakening_trigger.
  unfold bind at 1. unfold get_server_state at 1. cbn [server_state].
  destruct (bool_decide (tool_name = "coffee_mission") && _).
  { run_monad. rewrite <- app_assoc. reflexivity. }
  destruct (bool_decide (last3 _ = ["bathroom_break"; _; _])).
  { run_monad. reflexivity. }
  destruct (bool_decide (tool_name = "show_meme") && _).
  { run_monad. reflexivity. }
  destruct (bool_decide (last3 _ = ["deep_thinking"; _; _])).
  { run_monad. reflexivity. }
  reflexivity.
Qed.

Lemma execute_break_tool_delay tool_name summary stress_reduction :
  execute_break_tool tool_name summary stress_reduction
  = (s <- get_server_state ;;
     (if 5 <=? boss_alert_level s then sleep 20 else ret tt) ;;
     after_delay tool_name summary stress_reduction).
Proof. reflexivity. Qed.

Lemma execute_break_tool_steps tool_name summary lo hi s en dr ef :
  lo ≤ hi →
  execute_break_tool tool_name summary (lo, hi) (mkWorld (Some s) en dr ef)
  = conclude tool_name summary
      (mkWorld (Some (kept_state tool_name (reduction_drawn lo hi (en dr)) (en (S dr)) s))
               en (S (S dr))
               (ef ++ kept_effects (reduction_drawn lo hi (en dr)) s)).
Proof.
  intros Hrange. unfold execute_break_tool, randint, kept_effects. cbn [fst snd].
  apply Z.leb_le in Hrange. rewrite Hrange.
  fold (conclude tool_name summary).
  destruct (5 <=? boss_alert_level s) eqn:Halert; run_monad; rewrite Halert;
    run_monad; rewrite <- ?app_assoc; reflexivity.
Qed.

Lemma execute_break_tool_bad_range tool_name summary lo hi s en dr ef :
  hi < lo →
  fst (execute_break_tool tool_name summary (lo, hi) (mkWorld (Some s) en dr ef))
  = Raised ValueError.
Proof.
  intros Hrange. unfold execute_break_tool, randint. cbn [fst snd].
  apply Z.leb_gt in Hrange. rewrite Hrange.
  destruct (5 <=? boss_alert_level s) eqn:Halert; run_monad; rewrite Halert;
    reflexivity.
Qed.

Lemma truthy_event (art tail : string) : truthy (art +:+ nl +:+ tail) = true.
Proof. destruct art; reflexivity. Qed.

Lemma check_hidden_combo_detector tool_name s en dr ef :
  check_hidden_combo tool_name (mkWorld (Some s) en dr ef)
  = (Returned (detector_event tool_name s),
     mkWorld (Some (detector_state tool_name (en dr) s)) en
             (detector_draws tool_name s + dr) (ef ++ detector_effects tool_name s)).
Proof.
  rewrite check_hidden_combo_run.
  unfold detector_event, detector_state, detector_draws, detector_effects.
  destruct (coffee_trigger tool_name s); [reflexivity|].
  destruct (routine_trigger s); [reflexivity|].
  destruct (meme_trigger tool_name s); [reflexivity|].
  destruct (awakening_trigger s); [reflexivity|].
  rewrite app_nil_r. reflexivity.
Qed.

Lemma detector_event_truthy tool_name s e :
  detector_event tool_name s = Some e → truthy e = true.
Proof.
  unfold detector_event.
  destruct (coffee_trigger tool_name s); [intros [= <-]; apply truthy_event|].
  destruct (routine_trigger s); [intros [= <-]; apply truthy_event|].
  destruct (meme_trigger tool_name s); [intros [= <-]; apply truthy_event|].
  destruct (awakening_trigger s); [intros [= <-]; apply truthy_event|].
  discriminate.
Qed.

Lemma conclude_run tool_name summary s en dr ef :
  conclude tool_name summary (mkWorld (Some s) en dr ef)
  = (Returned (response_text
                 (base_text tool_name summary (detector_state tool_name (en dr) s))
                 (detector_event tool_name s)),
     mkWorld (Some (detector_state tool_name (en dr) s)) en
             (detector_draws tool_name s + dr) (ef ++ detector_effects tool_name s)).
Proof.
  unfold conclude. unfold bind at 1. rewrite check_hidden_combo_detector.
  unfold bind at 1. rewrite format_response_run.
  destruct (detector_event tool_name s) as [e|] eqn:Hev; [|reflexivity].
  rewrite (detector_event_truthy _ _ _ Hev). reflexivity.
Qed.

Lemma execute_break_tool_run tool_name summary lo hi s en dr ef :
  lo ≤ hi →
  execute_break_tool tool_name summary (lo, hi) (mkWorld (Some s) en dr ef)
  = let s1 := run_state tool_name lo hi s en dr in
    let s2 := detector_state tool_name (en (S (S dr))) s1 in
    (Returned (response_text (base_text tool_name summary s2)
                             (detector_event tool_name s1)),
     mkWorld (Some s2) en (detector_draws tool_name s1 + S (S dr))
             (ef ++ kept_effects (reduction_drawn lo hi (en dr)) s
                 ++ detector_effects tool_name s1)).
Proof.
  intros Hrange. rewrite execute_break_tool_steps by exact Hrange.
  rewrite conclude_run. cbn zeta. unfold run_state.
  rewrite <- app_assoc. reflexivity.
Qed.

Lemma after_delay_run tool_name summary lo hi s en dr ef :
  lo ≤ hi →
  after_delay tool_name summary (lo, hi) (mkWorld (Some s) en dr ef)
  = let s1 := run_state tool_name lo hi s en dr in
    let s2 := detector_state tool_name (en (S (S dr))) s1 in
    (Returned (response_text (base_text tool_name summary s2)
                             (detector_event tool_name s1)),
     mkWorld (Some s2) en (detector_draws tool_name s1 + S (S dr))
             (ef ++ [DecreaseStress (reduction_drawn lo hi (en dr));
                     MaybeIncreaseBossAlert]
                 ++ detector_effects tool_name s1)).
Proof.
  intros Hrange. unfold after_delay, randint. cbn [fst snd].
  apply Z.leb_le in Hrange. rewrite Hrange.
  fold (conclude tool_name summary). run_monad.
  transitivity (conclude tool_name summary
    (mkWorld (Some (run_state tool_name lo hi s en dr)) en (S (S dr))
       (ef ++ [DecreaseStress (reduction_drawn lo hi (en dr));
               MaybeIncreaseBossAlert]))).
  { rewrite <- app_assoc. reflexivity. }
  rewrite conclude_run. cbn zeta. rewrite <- app_assoc. reflexivity.
Qed.

Lemma after_delay_bad_range tool_name summary lo hi w :
  hi < lo → after_delay tool_name summary (lo, hi) w = (Raised ValueError, w).
Proof.
  intros Hrange. unfold after_delay, randint. cbn [fst snd].
  apply Z.leb_gt in Hrange. rewrite Hrange. reflexivity.
Qed.

Lemma reduction_drawn_range lo hi d :
  lo ≤ hi → lo ≤ reduction_drawn lo hi d ≤ hi.
Proof.
  intros Hrange. unfold reduction_drawn.
  pose proof (Z.mod_pos_bound d (hi - lo + 1)). lia.
Qed.

(** ** The registered tools *)

Lemma invoke_eq (a : Action) :
  invoke a = execute_break_tool (action_name a) (action_summary a) (action_range a).
Proof. destruct a; reflexivity. Qed.

Lemma action_range_ok (a : Action) : fst (action_range a) ≤ snd (action_range a).
Proof. destruct a; cbn; lia. Qed.

Lemma action_name_inj (a b : Action) : action_name a = action_name b → a = b.
Proof. destruct a, b; cbn; intros H; try reflexivity; discriminate H. Qed.

Lemma detector_outcome_listed tool_name s :
  (detector_event tool_name s, detector_effects tool_name s) ∈ detector_outcomes.
Proof.
  unfold detector_event, detector_effects, detector_outcomes.
  rewrite !elem_of_cons.
  destruct (coffee_trigger tool_name s); [auto|].
  destruct (routine_trigger s); [auto|].
  destruct (meme_trigger tool_name s); [auto 6|].
  destruct (awakening_trigger s); auto 6.
Qed.

(** ** The detector *)

(** C10: when none of the four conditions holds, the detector returns no
    event and the world it leaves is the world it was started in: stress,
    alert level, history and counters are all as before. *)
Theorem detector_no_match_is_identity (tool_name : string) (w : World) (s : ServerState) :
  server_state w = Some s →
  ¬ (tool_name = "coffee_mission" ∧ 7 ≤ default 0 (combo_count s !! tool_name)) →
  last3 (recent_actions s) ≠ ["bathroom_break"; "email_organizing"; "watch_netflix"] →
  ¬ (tool_name = "show_meme" ∧ 5 ≤ default 0 (combo_count s !! tool_name)) →
  last3 (recent_actions s) ≠ ["deep_thinking"; "coffee_mission"; "take_a_break"] →
  check_hidden_combo tool_name w = (Returned None, w).
Proof.
  intros Hs Hcoffee Hroutine Hmeme Hawake.
  destruct w as [st en dr ef]. cbn in Hs. subst st.
  rewrite check_hidden_combo_run.
  unfold coffee_trigger, routine_trigger, meme_trigger, awakening_trigger.
  rewrite (bool_decide_eq_false_2 _ Hroutine), (bool_decide_eq_false_2 _ Hawake).
  assert (bool_decide (tool_name = "coffee_mission")
          && (7 <=? default 0 (combo_count s !! tool_name)) = false) as ->.
  { apply andb_false_iff. case_bool_decide as Ht; [right|left; reflexivity].
    apply Z.leb_gt. apply Z.nle_gt. intros Hle. apply Hcoffee. split; assumption. }
  assert (bool_decide (tool_name = "show_meme")
          && (5 <=? default 0 (combo_count s !! tool_name)) = false) as ->.
  { apply andb_false_iff. case_bool_decide as Ht; [right|left; reflexivity].
    apply Z.leb_gt. apply Z.nle_gt. intros Hle. apply Hmeme. split; assumption. }
  reflexivity.
Qed.

(** C8: [check_hidden_combo] is the first-match evaluation of the four
    triggers in the order caffeine repetition, bathroom/email/video sequence,
    meme repetition, thinking/caffeine/break sequence; so one run returns
    the event of the first condition that holds, or none, and logs the
    calls of that one branch only. *)
Theorem detector_first_match_wins (tool_name : string) (w : World) :
  check_hidden_combo tool_name w = detect tool_name w
  ∧ (∀ s, server_state w = Some s →
       ∃ w',
         check_hidden_combo tool_name w = (Returned (detector_event tool_name s), w')
         ∧ (detector_event tool_name s, drop (length (effects w)) (effects w'))
           ∈ detector_outcomes).
Proof.
  split.
  - unfold check_hidden_combo, detect, bind, get_server_state.
    destruct (server_state w) as [s|]; [|reflexivity].
    cbn [first_match priority_order holds fire caffeine_repetition
         bathroom_email_video_sequence meme_repetition
         thinking_caffeine_break_sequence].
    unfold coffee_trigger, routine_trigger, meme_trigger, awakening_trigger.
    reflexivity.
  - intros s Hs. destruct w as [st en dr ef]. cbn in Hs. subst st.
    rewrite check_hidden_combo_detector. eexists. split; [reflexivity|].
    cbn [effects]. rewrite drop_app_length. apply detector_outcome_listed.
Qed.

(** ** Single invocations *)

Lemma append_self (a b : string) : a +:+ b = a → b = "".
Proof.
  induction a as [|c a IH]; cbn; [tauto|].
  intros [= H]. apply IH, H.
Qed.

Lemma response_text_plain base ev :
  (∀ e, ev = Some e → truthy e = true) →
  response_text base ev = base → ev = None.
Proof.
  intros Htruthy. destruct ev as [e|]; [|reflexivity]. cbn. intros Heq.
  apply append_self in Heq. specialize (Htruthy e eq_refl).
  destruct e; cbn in *; discriminate.
Qed.


Lemma count_effects_app p l1 l2 :
  count_effects p (l1 ++ l2) = (count_effects p l1 + count_effects p l2)%nat.
Proof. induction l1 as [|e l1 IH]; cbn; [reflexivity|]. rewrite IH. lia. Qed.

Lemma detector_state_recent tool_name d s :
  recent_actions (detector_state tool_name d s) = recent_actions s.
Proof.
  unfold detector_state.
  destruct (coffee_trigger tool_name s); [reflexivity|].
  destruct (routine_trigger s); [reflexivity|].
  destruct (meme_trigger tool_name s); [reflexivity|].
  destruct (awakening_trigger s); reflexivity.
Qed.

Lemma detector_state_combo_ne tool_name d s k :
  k ≠ tool_name →
  combo_count (detector_state tool_name d s) !! k = combo_count s !! k.
Proof.
  intros Hne. unfold detector_state.
  destruct (coffee_trigger tool_name s);
    [cbn; rewrite lookup_insert_ne by congruence; reflexivity|].
  destruct (routine_trigger s); [reflexivity|].
  destruct (meme_trigger tool_name s);
    [cbn; rewrite lookup_insert_ne by congruence; reflexivity|].
  destruct (awakening_trigger s); reflexivity.
Qed.

Lemma detector_state_combo_eq tool_name d s :
  combo_count (detector_state tool_name d s) !! tool_name
  = if coffee_trigger tool_name s
       || (negb (routine_trigger s) && meme_trigger tool_name s)
    then Some 0 else combo_count s !! tool_name.
Proof.
  unfold detector_state.
  destruct (coffee_trigger tool_name s); [cbn; apply lookup_insert_eq|].
  destruct (routine_trigger s); [reflexivity|].
  destruct (meme_trigger tool_name s); [cbn; apply lookup_insert_eq|].
  destruct (awakening_trigger s); reflexivity.
Qed.

Lemma run_state_combo_eq tool_name lo hi s en dr :
  combo_count (run_state tool_name lo hi s en dr) !! tool_name
  = Some (default 0 (combo_count s !! tool_name) + 1).
Proof.
  unfold run_state, kept_state. cbn [combo_count].
  rewrite reset_other_combos_lookup. apply bump_combo_lookup.
Qed.

Lemma run_state_combo_ne tool_name lo hi s en dr k :
  k ≠ tool_name →
  combo_count (run_state tool_name lo hi s en dr) !! k
  = (fun _ => 0) <$> (combo_count s !! k).
Proof.
  intros Hne. unfold run_state, kept_state. cbn [combo_count].
  rewrite reset_other_combos_lookup_ne by exact Hne.
  rewrite bump_combo_lookup_ne by exact Hne. reflexivity.
Qed.


Lemma execute_break_tool_state tool_name summary lo hi s en dr ef :
  lo ≤ hi →
  server_state
    (snd (execute_break_tool tool_name summary (lo, hi) (mkWorld (Some s) en dr ef)))
  = Some (detector_state tool_name (en (S (S dr))) (run_state tool_name lo hi s en dr)).
Proof.
  intros Hrange. rewrite (execute_break_tool_run _ _ _ _ _ _ _ _ Hrange).
  reflexivity.
Qed.

Lemma run_keeps_others_zero tool_name lo hi s en dr d k :
  k ≠ tool_name →
  combo_count (detector_state tool_name d (run_state tool_name lo hi s en dr)) !! k
  = (fun _ => 0) <$> (combo_count s !! k).
Proof.
  intros Hne. rewrite detector_state_combo_ne by exact Hne.
  apply run_state_combo_ne, Hne.
Qed.

Lemma run_keeps_own_key tool_name lo hi s en dr d :
  is_Some (combo_count (detector_state tool_name d (run_state tool_name lo hi s en dr))
           !! tool_name).
Proof.
  rewrite detector_state_combo_eq, run_state_combo_eq.
  destruct (_ || _); eauto.
Qed.

(** C5: after an invocation of [tool_name] every counter other than the one
    of [tool_name] is zero (a key that was present is now 0, no key is
    added), so at most one key holds a non-zero count; and when the call
    follows a call of a different tool [prior], the counter of [prior] is
    present and equal to 0. *)
Theorem streak_counters_exclusive
    (tool_name summary : string) (lo hi : Z) (w : World) (s : ServerState) :
  server_state w = Some s →
  lo ≤ hi →
  let w' := after (step_of (execute_break_tool tool_name summary (lo, hi)) w) in
  (∃ s', server_state w' = Some s'
         ∧ (∀ k v, combo_count s' !! k = Some v → v ≠ 0 → k = tool_name)
         ∧ (∀ k, k ≠ tool_name →
                 combo_count s' !! k = (fun _ => 0) <$> (combo_count s !! k)))
  ∧ (∀ prior prior_summary plo phi,
       plo ≤ phi → prior ≠ tool_name →
       let w1 := after (step_of (execute_break_tool prior prior_summary (plo, phi)) w) in
       let w2 := after (step_of (execute_break_tool tool_name summary (lo, hi)) w1) in
       ∃ s2, server_state w2 = Some s2 ∧ combo_count s2 !! prior = Some 0).
Proof.
  intros Hs Hrange w'. subst w'.
  destruct w as [st en dr ef]. cbn in Hs. subst st.
  unfold step_of. cbn [after]. split.
  - eexists. split; [apply execute_break_tool_state, Hrange|]. split.
    + intros k v Hk Hv. destruct (decide (k = tool_name)) as [Heq|Hne]; [exact Heq|].
      rewrite run_keeps_others_zero in Hk by exact Hne.
      destruct (combo_count s !! k); cbn in Hk; congruence.
    + intros k Hne. apply run_keeps_others_zero, Hne.
  - intros prior prior_summary plo phi Hprange Hne.
    rewrite (execute_break_tool_run prior _ _ _ _ _ _ _ Hprange). cbn [snd].
    eexists. split; [apply execute_break_tool_state, Hrange|].
    rewrite run_keeps_others_zero by exact Hne.
    destruct (run_keeps_own_key prior plo phi s en dr (en (S (S dr)))) as [v ->].
    reflexivity.
Qed.

Lemma after_delay_no_sleep tool_name summary stress_reduction w :
  count_effects is_sleep
    (drop (length (effects w))
          (effects (snd (after_delay tool_name summary stress_reduction w)))) = 0%nat.
Proof.
  destruct stress_reduction as [lo hi].
  destruct (Z_le_gt_dec lo hi) as [Hrange|Hrange].
  - destruct w as [[s|] en dr ef].
    + rewrite (after_delay_run _ _ _ _ _ _ _ _ Hrange). cbn [snd effects].
      rewrite drop_app_length, count_effects_app.
      pose proof (detector_outcome_listed tool_name (run_state tool_name lo hi s en dr))
        as Hout.
      unfold detector_outcomes in Hout.
      rewrite !elem_of_cons in Hout. rewrite elem_of_nil in Hout.
      destruct Hout as [H|[H|[H|[H|[H|[]]]]]]; injection H as _ ->; reflexivity.
    + unfold after_delay, randint. cbn [fst snd].
      apply Z.leb_le in Hrange. rewrite Hrange. run_monad.
      rewrite drop_app_length. reflexivity.
  - rewrite after_delay_bad_range by lia. cbn [snd].
    rewrite drop_all. reflexivity.
Qed.

(** C6: an invocation that starts with [boss_alert_level >= 5] first calls
    [asyncio.sleep(20)], on the untouched state, and then runs the rest of
    the lifecycle; one that starts below 5 runs the rest of the lifecycle at
    once; and the rest of the lifecycle never sleeps. *)
Theorem delay_exactly_when_alert_high
    (tool_name summary : string) (stress_reduction : Z * Z)
    (w : World) (s : ServerState) :
  server_state w = Some s →
  let st := step_of (execute_break_tool tool_name summary stress_reduction) w in
  (5 ≤ boss_alert_level s →
     execute_break_tool tool_name summary stress_reduction w
     = after_delay tool_name summary stress_reduction
         (mkWorld (Some s) (entropy w) (draws w) (effects w ++ [Sleep 20]))
     ∧ ∃ rest, new_effects st = Sleep 20 :: rest
               ∧ count_effects is_sleep rest = 0%nat)
  ∧ (boss_alert_level s < 5 →
     execute_break_tool tool_name summary stress_reduction w
     = after_delay tool_name summary stress_reduction w
     ∧ count_effects is_sleep (new_effects st) = 0%nat).
Proof.
  intros Hs st. subst st.
  destruct w as [st en dr ef]. cbn in Hs. subst st.
  cbn [entropy draws effects]. split; intros Halert.
  - assert (Heq : execute_break_tool tool_name summary stress_reduction
                    (mkWorld (Some s) en dr ef)
                  = after_delay tool_name summary stress_reduction
                      (mkWorld (Some s) en dr (ef ++ [Sleep 20]))).
    { rewrite execute_break_tool_delay. run_monad.
      apply Z.leb_le in Halert. rewrite Halert. reflexivity. }
    split; [exact Heq|].
    unfold new_effects, step_of. cbn [before after effects]. rewrite Heq.
    pose proof (after_delay_no_sleep tool_name summary stress_reduction
                  (mkWorld (Some s) en dr (ef ++ [Sleep 20]))) as Hno.
    cbn [effects] in Hno. rewrite length_app in Hno. cbn [length] in Hno.
    set (out := effects (snd (after_delay tool_name summary stress_reduction
                                (mkWorld (Some s) en dr (ef ++ [Sleep 20]))))) in *.
    assert (Hpre : ∃ more, out = (ef ++ [Sleep 20]) ++ more).
    { unfold out. destruct stress_reduction as [lo hi].
      destruct (Z_le_gt_dec lo hi) as [Hrange|Hrange].
      - rewrite (after_delay_run _ _ _ _ _ _ _ _ Hrange). cbn [snd effects].
        eexists. reflexivity.
      - rewrite after_delay_bad_range by lia. cbn [snd effects].
        exists []. rewrite app_nil_r. reflexivity. }
    destruct Hpre as [more Hout]. rewrite Hout in Hno |- *.
    rewrite <- app_assoc, drop_app_length. cbn [app].
    exists more. split; [reflexivity|].
    replace (length ef + 1)%nat with (length (ef ++ [Sleep 20])) in Hno
      by (rewrite length_app; reflexivity).
    rewrite drop_app_length in Hno. exact Hno.
  - assert (Heq : execute_break_tool tool_name summary stress_reduction
                    (mkWorld (Some s) en dr ef)
                  = after_delay tool_name summary stress_reduction
                      (mkWorld (Some s) en dr ef)).
    { rewrite execute_break_tool_delay. run_monad.
      apply Z.leb_gt in Halert. rewrite Halert. reflexivity. }
    split; [exact Heq|].
    unfold new_effects, step_of. cbn [before after effects]. rewrite Heq.
    apply (after_delay_no_sleep tool_name summary stress_reduction
             (mkWorld (Some s) en dr ef)).
Qed.

(** ** Steps of a session *)

Lemma format_response_init tool_name summary w s :
  server_state w = Some s →
  format_response tool_name summary w = (Returned (base_text tool_name summary s), w).
Proof. intros Hs. destruct w as [st en dr ef]. cbn in Hs. subst st. reflexivity. Qed.

Lemma plain_not_bonus event tool_name summary st :
  plain_response tool_name summary st →
  ¬ bonus_response event tool_name summary st.
Proof.
  intros (base & Hbase & Hres) (base' & Hbase' & Hres').
  rewrite Hbase in Hbase'. injection Hbase' as <-.
  rewrite Hres in Hres'. injection Hres' as Heq.
  symmetry in Heq. apply append_self in Heq. discriminate Heq.
Qed.

(** What one call of a registered tool does to an initialised world: [r] is
    the reduction it drew, [s1] the state the detector starts in and [s2]
    the state it leaves. *)
Lemma invoke_step (a : Action) (w : World) (s : ServerState) :
  server_state w = Some s →
  let st := step_of (invoke a) w in
  ∃ r d d' s1 s2,
    fst (action_range a) ≤ r ≤ snd (action_range a)
    ∧ s1 = kept_state (action_name a) r d s
    ∧ s2 = detector_state (action_name a) d' s1
    ∧ server_state (after st) = Some s2
    ∧ result st
      = Returned (response_text (base_text (action_name a) (action_summary a) s2)
                                (detector_event (action_name a) s1))
    ∧ new_effects st = kept_effects r s ++ detector_effects (action_name a) s1.
Proof.
  intros Hs st. subst st. destruct w as [st en dr ef]. cbn in Hs. subst st.
  rewrite invoke_eq. pose proof (action_range_ok a) as Hrange.
  destruct (action_range a) as [lo hi]. cbn [fst snd] in *.
  unfold step_of, new_effects.
  rewrite (execute_break_tool_run _ _ _ _ _ _ _ _ Hrange).
  cbn [fst snd before after result effects server_state].
  eexists (reduction_drawn lo hi (en dr)), (en (S dr)), (en (S (S dr))), _, _.
  split; [apply reduction_drawn_range, Hrange|].
  split; [reflexivity|]. split; [reflexivity|]. split; [reflexivity|].
  split; [reflexivity|]. apply drop_app_length.
Qed.

Lemma step_plain tool_name summary st s2 :
  server_state (after st) = Some s2 →
  result st = Returned (response_text (base_text tool_name summary s2) None) →
  plain_response tool_name summary st.
Proof.
  intros Hs Hres. exists (base_text tool_name summary s2).
  split; [apply format_response_init, Hs|exact Hres].
Qed.

Lemma step_bonus event tool_name summary st s2 :
  server_state (after st) = Some s2 →
  result st = Returned (response_text (base_text tool_name summary s2) (Some event)) →
  bonus_response event tool_name summary st.
Proof.
  intros Hs Hres. exists (base_text tool_name summary s2).
  split; [apply format_response_init, Hs|exact Hres].
Qed.

(** The triggers in the state steps 1 to 5 leave. *)
Lemma coffee_trigger_kept tool_name r d s :
  coffee_trigger tool_name (kept_state tool_name r d s)
  = bool_decide (tool_name = "coffee_mission")
    && (7 <=? default 0 (combo_count s !! tool_name) + 1).
Proof.
  unfold coffee_trigger, kept_state. cbn [combo_count].
  rewrite reset_other_combos_lookup, bump_combo_lookup. reflexivity.
Qed.

Lemma meme_trigger_kept tool_name r d s :
  meme_trigger tool_name (kept_state tool_name r d s)
  = bool_decide (tool_name = "show_meme")
    && (5 <=? default 0 (combo_count s !! tool_name) + 1).
Proof.
  unfold meme_trigger, kept_state. cbn [combo_count].
  rewrite reset_other_combos_lookup, bump_combo_lookup. reflexivity.
Qed.

Lemma routine_trigger_kept tool_name r d s :
  routine_trigger (kept_state tool_name r d s) = true → tool_name = "watch_netflix".
Proof.
  unfold routine_trigger, kept_state. cbn [recent_actions].
  intros H. apply bool_decide_eq_true_1 in H.
  symmetry. eapply last3_record_action, H.
Qed.

Lemma awakening_trigger_kept tool_name r d s :
  awakening_trigger (kept_state tool_name r d s) = true → tool_name = "take_a_break".
Proof.
  unfold awakening_trigger, kept_state. cbn [recent_actions].
  intros H. apply bool_decide_eq_true_1 in H.
  symmetry. eapply last3_record_action, H.
Qed.

Lemma routine_trigger_other tool_name r d s :
  tool_name ≠ "watch_netflix" → routine_trigger (kept_state tool_name r d s) = false.
Proof.
  intros Hne. destruct (routine_trigger _) eqn:H; [|reflexivity].
  apply routine_trigger_kept in H. contradiction.
Qed.

Lemma awakening_trigger_other tool_name r d s :
  tool_name ≠ "take_a_break" → awakening_trigger (kept_state tool_name r d s) = false.
Proof.
  intros Hne. destruct (awakening_trigger _) eqn:H; [|reflexivity].
  apply awakening_trigger_kept in H. contradiction.
Qed.

(** ** Seven coffees *)

Lemma coffee_step (w : World) (s : ServerState) :
  server_state w = Some s →
  let st := step_of (invoke CoffeeMission) w in
  (∃ s', server_state (after st) = Some s')
  ∧ (streak "coffee_mission" w + 1 < 7 → ordinary_coffee_step st)
  ∧ (7 ≤ streak "coffee_mission" w + 1 → overconsumption_step st).
Proof.
  intros Hs st.
  destruct (invoke_step CoffeeMission w s Hs)
    as (r & d & d' & s1 & s2 & Hr & Hs1 & Hs2 & Hafter & Hres & Hnew).
  fold st in Hafter, Hres, Hnew. cbn [action_name action_summary action_range fst snd] in *.
  assert (Hbefore : before st = w) by reflexivity.
  assert (Hstreak : streak "coffee_mission" w = default 0 (combo_count s !! "coffee_mission"))
    by (unfold streak; rewrite Hs; reflexivity).
  pose proof (coffee_trigger_kept "coffee_mission" r d s) as Hc.
  rewrite bool_decide_eq_true_2 in Hc by reflexivity. cbn [andb] in Hc.
  rewrite <- Hs1, <- Hstreak in Hc.
  split; [eauto|]. split; intros Hlt.
  - assert (Hcf : coffee_trigger "coffee_mission" s1 = false)
      by (rewrite Hc; apply Z.leb_gt; lia).
    assert (Hrt : routine_trigger s1 = false)
      by (rewrite Hs1; apply routine_trigger_other; discriminate).
    assert (Hmt : meme_trigger "coffee_mission" s1 = false) by reflexivity.
    assert (Hat : awakening_trigger s1 = false)
      by (rewrite Hs1; apply awakening_trigger_other; discriminate).
    unfold detector_event in Hres. unfold detector_effects in Hnew.
    unfold detector_state in Hs2. rewrite Hcf, Hrt, Hmt, Hat in *.
    rewrite app_nil_r in Hnew. subst s2.
    split; [eapply step_plain; eassumption|]. split.
    + rewrite Hbefore. unfold streak at 1. rewrite Hafter, Hs1.
      cbn [kept_state combo_count].
      rewrite reset_other_combos_lookup, bump_combo_lookup, Hstreak. reflexivity.
    + exists s, r. rewrite Hbefore. auto.
  - assert (Hcf : coffee_trigger "coffee_mission" s1 = true)
      by (rewrite Hc; apply Z.leb_le; lia).
    unfold detector_event in Hres. unfold detector_effects in Hnew.
    unfold detector_state in Hs2. rewrite Hcf in *. subst s2.
    split; [eapply step_bonus; eassumption|]. split.
    + unfold streak. rewrite Hafter. cbn [coffee_state combo_count].
      rewrite lookup_insert_eq. reflexivity.
    + exists s, r. rewrite Hbefore. repeat split; try tauto.
      unfold stress. rewrite Hafter, Hs1. reflexivity.
Qed.

Lemma coffee_sessions (n : nat) :
  ∀ (w : World) (s : ServerState) (i : nat) (st : Step),
    server_state w = Some s →
    0 ≤ streak "coffee_mission" w < 7 →
    session (replicate n CoffeeMission) w !! i = Some st →
    if decide ((streak "coffee_mission" w + Z.of_nat i + 1) mod 7 = 0)
    then overconsumption_step st
    else ordinary_coffee_step st.
Proof.
  induction n as [|n IH]; intros w s i st Hs Hc Hst; [discriminate Hst|].
  cbn [replicate session] in Hst.
  destruct (coffee_step w s Hs) as ((s' & Hs') & Hordinary & Hbonus).
  destruct i as [|i].
  - cbn in Hst. injection Hst as <-.
    replace (streak "coffee_mission" w + Z.of_nat 0 + 1)
      with (streak "coffee_mission" w + 1) by lia.
    destruct (decide (streak "coffee_mission" w + 1 = 7)) as [H7|H7].
    + rewrite H7. cbn. apply Hbonus. lia.
    + rewrite Z.mod_small by lia. rewrite decide_False by lia.
      apply Hordinary. lia.
  - cbn [lookup list_lookup] in Hst.
    change (session (replicate n CoffeeMission)
              (after (step_of (invoke CoffeeMission) w)) !! i = Some st) in Hst.
    destruct (decide (streak "coffee_mission" w + 1 = 7)) as [H7|H7].
    + assert (Hz : streak "coffee_mission" (after (step_of (invoke CoffeeMission) w)) = 0)
        by (apply Hbonus; lia).
      specialize (IH _ s' i st Hs' ltac:(lia) Hst). rewrite Hz in IH.
      replace (streak "coffee_mission" w + Z.of_nat (S i) + 1)
        with (0 + Z.of_nat i + 1 + 1 * 7) by lia.
      rewrite Z_mod_plus_full. exact IH.
    + assert (Hz : streak "coffee_mission" (after (step_of (invoke CoffeeMission) w))
                   = streak "coffee_mission" w + 1)
        by (apply Hordinary; lia).
      specialize (IH _ s' i st Hs' ltac:(lia) Hst). rewrite Hz in IH.
      replace (streak "coffee_mission" w + Z.of_nat (S i) + 1)
        with (streak "coffee_mission" w + 1 + Z.of_nat i + 1) by lia.
      exact IH.
Qed.

(** C2: in a run of consecutive [coffee_mission] calls that starts with the
    coffee counter at 0, call number [i + 1] fires the overconsumption bonus
    exactly when [i + 1] is a multiple of 7: the 7th call fires it (one more
    stress decrease of 10, one more escalation attempt, counter back to 0),
    calls 1 to 6 and 8 to 13 give the plain response, the 14th fires again. *)
Theorem seven_coffees_fire_once
    (w : World) (s : ServerState) (n i : nat) (st : Step) :
  server_state w = Some s →
  streak "coffee_mission" w = 0 →
  session (replicate n CoffeeMission) w !! i = Some st →
  if decide ((Z.of_nat i + 1) mod 7 = 0)
  then overconsumption_step st
  else ordinary_coffee_step st
       ∧ ¬ bonus_response coffee_event "coffee_mission"
             "Coffee mission with office tour" st.
Proof.
  intros Hs Hzero Hst.
  pose proof (coffee_sessions n w s i st Hs ltac:(lia) Hst) as H.
  rewrite Hzero in H. replace (0 + Z.of_nat i + 1) with (Z.of_nat i + 1) in H by lia.
  destruct (decide ((Z.of_nat i + 1) mod 7 = 0)); [exact H|].
  split; [exact H|]. apply plain_not_bonus, H.
Qed.

(** ** Histories *)

Lemma record_action_suffix (h suf : list string) (x : string) :
  (length suf < 10)%nat → ∃ h', record_action x (h ++ suf) = h' ++ suf ++ [x].
Proof.
  intros Hsuf. unfold record_action, pop0.
  destruct (10 <? length ((h ++ suf) ++ [x]))%nat eqn:Hlen.
  - apply Nat.ltb_lt in Hlen. rewrite !length_app in Hlen. cbn [length] in Hlen.
    destruct h as [|a h]; [cbn [length] in Hlen; lia|].
    exists h. cbn [app tail]. rewrite <- app_assoc. reflexivity.
  - exists h. rewrite <- app_assoc. reflexivity.
Qed.

Lemma three_calls_history (h : list string) (x y z : string) :
  last3 (record_action z (record_action y (record_action x h))) = [x; y; z].
Proof.
  destruct (record_action_suffix h [] x) as [h1 H1]; [cbn; lia|].
  rewrite app_nil_r in H1. rewrite H1. cbn [app].
  destruct (record_action_suffix h1 [x] y) as [h2 H2]; [cbn; lia|].
  rewrite H2. cbn [app].
  destruct (record_action_suffix h2 [x; y] z) as [h3 H3]; [cbn; lia|].
  rewrite H3. cbn [app]. apply last3_app.
Qed.

Lemma invoke_history (a : Action) (w : World) (s : ServerState) :
  server_state w = Some s →
  ∃ s', server_state (after (step_of (invoke a) w)) = Some s'
        ∧ recent_actions s' = record_action (action_name a) (recent_actions s).
Proof.
  intros Hs.
  destruct (invoke_step a w s Hs)
    as (r & d & d' & s1 & s2 & _ & Hs1 & Hs2 & Hafter & _ & _).
  exists s2. split; [exact Hafter|].
  rewrite Hs2, detector_state_recent, Hs1. reflexivity.
Qed.

(** The state the detector starts in on the third of three calls. *)
Lemma third_call_history (a b c : Action) (w : World) (s : ServerState) :
  server_state w = Some s →
  ∃ s2, server_state (after (step_of (invoke b) (after (step_of (invoke a) w)))) = Some s2
        ∧ ∀ r d, last3 (recent_actions (kept_state (action_name c) r d s2))
                 = [action_name a; action_name b; action_name c].
Proof.
  intros Hs.
  destruct (invoke_history a w s Hs) as (s1 & Hs1 & Hh1).
  destruct (invoke_history b _ s1 Hs1) as (s2 & Hs2 & Hh2).
  exists s2. split; [exact Hs2|]. intros r d.
  cbn [kept_state recent_actions]. rewrite Hh2, Hh1. apply three_calls_history.
Qed.

(** ** Thinking, coffee, break *)

(** C3: whatever the state before, and so whatever the stress level, the
    third call of [deep_thinking], [coffee_mission], [take_a_break] fires
    the awakening bonus: it calls one more stress decrease, of 100, and
    leaves the stress level at exactly 0. *)
Theorem awakening_sets_stress_to_zero (w : World) (s : ServerState) (st : Step) :
  server_state w = Some s →
  session [DeepThinking; CoffeeMission; TakeABreak] w !! 2%nat = Some st →
  awakening_step st.
Proof.
  intros Hs Hst.
  destruct (third_call_history DeepThinking CoffeeMission TakeABreak w s Hs)
    as (s2 & Hs2 & Hseq).
  set (w2 := after (step_of (invoke CoffeeMission)
                      (after (step_of (invoke DeepThinking) w)))) in *.
  assert (st = step_of (invoke TakeABreak) w2) as ->
    by (change (Some (step_of (invoke TakeABreak) w2) = Some st) in Hst; congruence).
  destruct (invoke_step TakeABreak w2 s2 Hs2)
    as (r & d & d' & s3 & s4 & Hr & Hs3 & Hs4 & Hafter & Hres & Hnew).
  cbn [action_name action_summary action_range fst snd] in *.
  assert (Hcf : coffee_trigger "take_a_break" s3 = false) by reflexivity.
  assert (Hmt : meme_trigger "take_a_break" s3 = false) by reflexivity.
  assert (Hrt : routine_trigger s3 = false)
    by (unfold routine_trigger; rewrite Hs3, Hseq; reflexivity).
  assert (Hat : awakening_trigger s3 = true)
    by (unfold awakening_trigger; rewrite Hs3, Hseq; reflexivity).
  unfold detector_event in Hres. unfold detector_effects in Hnew.
  unfold detector_state in Hs4. rewrite Hcf, Hrt, Hmt, Hat in *. subst s4.
  split; [eapply step_bonus; eassumption|]. split.
  - unfold stress. rewrite Hafter. reflexivity.
  - exists s2, r. auto.
Qed.

(** ** Bathroom, email, netflix *)

Lemma invoke_step_plain (a : Action) (w : World) (s : ServerState) :
  server_state w = Some s →
  (∀ r d, let s1 := kept_state (action_name a) r d s in
          coffee_trigger (action_name a) s1 = false
          ∧ routine_trigger s1 = false
          ∧ meme_trigger (action_name a) s1 = false
          ∧ awakening_trigger s1 = false) →
  let st := step_of (invoke a) w in
  plain_response (action_name a) (action_summary a) st
  ∧ ∃ r d, fst (action_range a) ≤ r ≤ snd (action_range a)
           ∧ new_effects st = kept_effects r s
           ∧ server_state (after st) = Some (kept_state (action_name a) r d s).
Proof.
  intros Hs Hno st.
  destruct (invoke_step a w s Hs)
    as (r & d & d' & s1 & s2 & Hr & Hs1 & Hs2 & Hafter & Hres & Hnew).
  fold st in Hafter, Hres, Hnew.
  destruct (Hno r d) as (Hcf & Hrt & Hmt & Hat). cbn zeta in *. rewrite <- Hs1 in *.
  unfold detector_event in Hres. unfold detector_effects in Hnew.
  unfold detector_state in Hs2. rewrite Hcf, Hrt, Hmt, Hat in *.
  rewrite app_nil_r in Hnew. subst s2.
  split; [eapply step_plain; eassumption|]. exists r, d. subst s1. auto.
Qed.

Lemma not_coffee_trigger tool_name s :
  tool_name ≠ "coffee_mission" → coffee_trigger tool_name s = false.
Proof.
  intros Hne. unfold coffee_trigger.
  rewrite bool_decide_eq_false_2 by exact Hne. reflexivity.
Qed.

Lemma not_meme_trigger tool_name s :
  tool_name ≠ "show_meme" → meme_trigger tool_name s = false.
Proof.
  intros Hne. unfold meme_trigger.
  rewrite bool_decide_eq_false_2 by exact Hne. reflexivity.
Qed.

Lemma record_action_short (x : string) (h : list string) :
  (length h < 10)%nat → record_action x h = h ++ [x].
Proof.
  intros Hlen. unfold record_action. rewrite length_app. cbn [length].
  destruct (10 <? length h + 1)%nat eqn:H; [apply Nat.ltb_lt in H; lia|reflexivity].
Qed.

(** With fewer than two entries recorded before the call, the slice the
    detector takes has fewer than three. *)
Lemma short_history_triggers tool_name r d s :
  (length (recent_actions s) < 2)%nat →
  routine_trigger (kept_state tool_name r d s) = false
  ∧ awakening_trigger (kept_state tool_name r d s) = false.
Proof.
  intros Hlen. unfold routine_trigger, awakening_trigger, kept_state.
  cbn [recent_actions]. rewrite record_action_short by lia.
  split; apply bool_decide_eq_false_2; intros Heq;
    apply (f_equal length) in Heq; rewrite last3_length, length_app in Heq;
    cbn [length] in Heq; lia.
Qed.

Lemma trio_member (x : Action) :
  x ∈ trio →
  action_name x ≠ "coffee_mission" ∧ action_name x ≠ "show_meme"
  ∧ action_name x ≠ "take_a_break".
Proof.
  unfold trio. rewrite !elem_of_cons, elem_of_nil.
  intros [->|[->|[->|[]]]]; repeat split; discriminate.
Qed.

Lemma third_step_of (a b c : Action) (w : World) (st : Step) :
  session [a; b; c] w !! 2%nat = Some st →
  st = step_of (invoke c)
         (after (step_of (invoke b) (after (step_of (invoke a) w)))).
Proof.
  intros Hst.
  change (Some (step_of (invoke c)
                  (after (step_of (invoke b) (after (step_of (invoke a) w)))))
          = Some st) in Hst.
  congruence.
Qed.

(** C7: the third call of [bathroom_break], [email_organizing],
    [watch_netflix] fires the master-routine bonus, with one more stress
    decrease of 50 and no counter reset by the detector; the third call of
    the same three tools in any other order gives the plain response; and on
    an empty history no call of such another order gives anything but the
    plain response. *)
Theorem master_routine_needs_exact_order (w : World) (s : ServerState) :
  server_state w = Some s →
  (∀ st, session trio w !! 2%nat = Some st → master_routine_step st)
  ∧ (∀ a b c st,
       [a; b; c] ≡ₚ trio → [a; b; c] ≠ trio →
       session [a; b; c] w !! 2%nat = Some st →
       plain_response (action_name c) (action_summary c) st
       ∧ ¬ bonus_response routine_event (action_name c) (action_summary c) st)
  ∧ (recent_actions s = [] →
     ∀ a b c i x st,
       [a; b; c] ≡ₚ trio → [a; b; c] ≠ trio →
       [a; b; c] !! i = Some x →
       session [a; b; c] w !! i = Some st →
       plain_response (action_name x) (action_summary x) st).
Proof.
  intros Hs.
  assert (Hthird : ∀ a b c st,
            [a; b; c] ≡ₚ trio → [a; b; c] ≠ trio →
            session [a; b; c] w !! 2%nat = Some st →
            plain_response (action_name c) (action_summary c) st).
  { intros a b c st Hperm Hother Hst. apply third_step_of in Hst. subst st.
    destruct (third_call_history a b c w s Hs) as (s2 & Hs2 & Hseq).
    assert (Hc : c ∈ trio) by (rewrite <- Hperm, !elem_of_cons; auto).
    destruct (trio_member c Hc) as (Hn1 & Hn2 & Hn3).
    apply (invoke_step_plain c _ s2 Hs2). intros r d. cbn zeta.
    split; [apply not_coffee_trigger, Hn1|].
    split; [|split; [apply not_meme_trigger, Hn2|]].
    - unfold routine_trigger. rewrite Hseq. apply bool_decide_eq_false_2.
      intros [= Ha Hb Hc']. apply Hother. unfold trio.
      rewrite (action_name_inj a BathroomBreak Ha),
        (action_name_inj b EmailOrganizing Hb), (action_name_inj c WatchNetflix Hc').
      reflexivity.
    - unfold awakening_trigger. rewrite Hseq. apply bool_decide_eq_false_2.
      intros [= _ _ Hc']. contradiction. }
  split; [|split].
  - intros st Hst. apply third_step_of in Hst. subst st.
    destruct (third_call_history BathroomBreak EmailOrganizing WatchNetflix w s Hs)
      as (s2 & Hs2 & Hseq).
    set (w2 := after (step_of (invoke EmailOrganizing)
                        (after (step_of (invoke BathroomBreak) w)))) in *.
    destruct (invoke_step WatchNetflix w2 s2 Hs2)
      as (r & d & d' & s3 & s4 & Hr & Hs3 & Hs4 & Hafter & Hres & Hnew).
    cbn [action_name action_summary action_range fst snd] in *.
    assert (Hcf : coffee_trigger "watch_netflix" s3 = false) by reflexivity.
    assert (Hrt : routine_trigger s3 = true)
      by (unfold routine_trigger; rewrite Hs3, Hseq; reflexivity).
    unfold detector_event in Hres. unfold detector_effects in Hnew.
    unfold detector_state in Hs4. rewrite Hcf, Hrt in *. subst s4.
    split; [eapply step_bonus; eassumption|].
    exists s2, r, (routine_state s3). subst s3.
    repeat split; try tauto; assumption.
  - intros a b c st Hperm Hother Hst.
    pose proof (Hthird a b c st Hperm Hother Hst) as Hplain.
    split; [exact Hplain|]. apply plain_not_bonus, Hplain.
  - intros Hempty a b c i x st Hperm Hother Hx Hst.
    assert (Ha : a ∈ trio) by (rewrite <- Hperm, !elem_of_cons; auto).
    assert (Hb : b ∈ trio) by (rewrite <- Hperm, !elem_of_cons; auto).
    destruct (trio_member a Ha) as (Ha1 & Ha2 & _).
    destruct (trio_member b Hb) as (Hb1 & Hb2 & _).
    destruct i as [|[|[|i]]]; [| | |discriminate Hx].
    + injection Hx as <-.
      assert (st = step_of (invoke a) w) as ->
        by (change (Some (step_of (invoke a) w) = Some st) in Hst; congruence).
      apply (invoke_step_plain a w s Hs). intros r d. cbn zeta.
      destruct (short_history_triggers (action_name a) r d s) as [Hrt Hat];
        [rewrite Hempty; cbn; lia|].
      auto using not_coffee_trigger, not_meme_trigger.
    + injection Hx as <-.
      assert (st = step_of (invoke b) (after (step_of (invoke a) w))) as ->
        by (change (Some (step_of (invoke b) (after (step_of (invoke a) w))) = Some st)
              in Hst; congruence).
      destruct (invoke_history a w s Hs) as (s1 & Hs1 & Hh1).
      apply (invoke_step_plain b _ s1 Hs1). intros r d. cbn zeta.
      destruct (short_history_triggers (action_name b) r d s1) as [Hrt Hat];
        [rewrite Hh1, Hempty; cbn; lia|].
      auto using not_coffee_trigger, not_meme_trigger.
    + injection Hx as <-. apply (Hthird a b c st Hperm Hother Hst).
Qed.

(** ** The bounded history *)

Lemma last10_length (l : list string) : (length (last10 l) ≤ 10)%nat.
Proof. unfold last10. rewrite length_drop. lia. Qed.

Lemma last10_short (l : list string) : (length l ≤ 10)%nat → last10 l = l.
Proof.
  intros Hl. unfold last10. replace (length l - 10)%nat with 0%nat by lia.
  reflexivity.
Qed.

Lemma record_action_last10 (x : string) (h : list string) :
  (length h ≤ 10)%nat → record_action x h = last10 (h ++ [x]).
Proof.
  intros Hlen. unfold record_action, last10, pop0.
  rewrite length_app. cbn [length].
  destruct (10 <? length h + 1)%nat eqn:H.
  - apply Nat.ltb_lt in H. replace (length h + 1 - 10)%nat with 1%nat by lia.
    destruct h; reflexivity.
  - apply Nat.ltb_ge in H. replace (length h + 1 - 10)%nat with 0%nat by lia.
    reflexivity.
Qed.

Lemma last10_app (l m : list string) : last10 (last10 l ++ m) = last10 (l ++ m).
Proof.
  destruct (decide (length l ≤ 10)%nat) as [Hle|Hgt].
  - rewrite (last10_short l Hle). reflexivity.
  - unfold last10 at 1 3. rewrite !length_app.
    assert (Hlen : length (last10 l) = 10%nat)
      by (unfold last10; rewrite length_drop; lia).
    rewrite Hlen.
    replace (length l + length m - 10)%nat with ((length l - 10) + length m)%nat by lia.
    rewrite <- drop_drop. rewrite (drop_app_le l m) by lia.
    replace (10 + length m - 10)%nat with (length m) by lia.
    reflexivity.
Qed.

Lemma session_end_history (acts : list Action) :
  ∀ (w : World) (s : ServerState),
    server_state w = Some s →
    (length (recent_actions s) ≤ 10)%nat →
    ∃ s', server_state (session_end acts w) = Some s'
          ∧ recent_actions s' = last10 (recent_actions s ++ map action_name acts).
Proof.
  induction acts as [|a acts IH]; intros w s Hs Hlen.
  - exists s. split; [exact Hs|]. cbn [map]. rewrite app_nil_r.
    symmetry. apply last10_short, Hlen.
  - cbn [session_end map].
    destruct (invoke_history a w s Hs) as (s1 & Hs1 & Hh1).
    rewrite record_action_last10 in Hh1 by exact Hlen.
    destruct (IH _ s1 Hs1) as (s' & Hs' & Hh');
      [rewrite Hh1; apply last10_length|].
    exists s'. split; [exact Hs'|].
    rewrite Hh', Hh1, last10_app, <- app_assoc. reflexivity.
Qed.

(** C4, amended: a history of at most 10 entries, such as the empty one of a
    new session, never exceeds 10: after any calls it is the last 10 of the
    identifiers recorded so far, the oldest leaving first.  After 11 calls
    on an empty history it is the identifiers of calls 2 to 11, so the entry
    of the first call is gone, and its identifier is absent exactly when the
    tool was not called again among those ten. *)
Theorem history_keeps_last_ten (w : World) (s : ServerState) :
  server_state w = Some s →
  (length (recent_actions s) ≤ 10)%nat →
  (∀ acts,
     (length (history (session_end acts w)) ≤ 10)%nat
     ∧ history (session_end acts w)
       = last10 (recent_actions s ++ map action_name acts))
  ∧ (recent_actions s = [] →
     ∀ first rest,
       length rest = 10%nat →
       history (session_end (first :: rest) w) = map action_name rest
       ∧ (first_identifier_absent first rest w ↔ first ∉ rest)).
Proof.
  intros Hs Hlen.
  assert (Hall : ∀ acts, history (session_end acts w)
                         = last10 (recent_actions s ++ map action_name acts)).
  { intros acts. destruct (session_end_history acts w s Hs Hlen) as (s' & Hs' & Hh').
    unfold history. rewrite Hs'. exact Hh'. }
  split.
  - intros acts. rewrite Hall. split; [apply last10_length|reflexivity].
  - intros Hempty first rest Hrest.
    assert (Hhist : history (session_end (first :: rest) w) = map action_name rest).
    { rewrite Hall, Hempty. cbn [app map]. unfold last10. cbn [length].
      rewrite length_map, Hrest. reflexivity. }
    split; [exact Hhist|].
    unfold first_identifier_absent. rewrite Hhist.
    split; intros Hnot Hin; apply Hnot.
    + apply list_elem_of_fmap. exists first. auto.
    + apply list_elem_of_fmap in Hin as (y & Hy & Hin).
      apply action_name_inj in Hy. subst y. exact Hin.
Qed.

(** ** The first two calls of a session *)

Lemma initialize_state_world (state : ServerState) (w : World) :
  snd (initialize_state state w)
  = mkWorld (Some (mkServerState (stress_level state) (boss_alert_level state) [] ∅))
            (entropy w) (draws w) (effects w).
Proof. reflexivity. Qed.

Lemma first_call_streaks (tool_name k : string) :
  default 0 (reset_other_combos tool_name (bump_combo tool_name ∅) !! k) ≤ 1.
Proof.
  destruct (decide (k = tool_name)) as [->|Hne].
  - rewrite reset_other_combos_lookup, bump_combo_lookup, lookup_empty. cbn. lia.
  - rewrite reset_other_combos_lookup_ne, bump_combo_lookup_ne, lookup_empty by exact Hne.
    cbn. lia.
Qed.

Lemma low_streak_triggers tool_name r d s :
  default 0 (combo_count s !! tool_name) ≤ 1 →
  coffee_trigger tool_name (kept_state tool_name r d s) = false
  ∧ meme_trigger tool_name (kept_state tool_name r d s) = false.
Proof.
  intros Hlow. rewrite coffee_trigger_kept, meme_trigger_kept.
  split; apply andb_false_iff; right; apply Z.leb_gt; lia.
Qed.

(** C9: while the history holds fewer than 3 entries the slice [seq] is the
    whole history, no index leaves the list, neither sequence condition
    holds, and the detector returns normally with no event or with one of
    the two repetition events; the first two calls of a session, made on a
    history of 0 and 1 entries, are answered with the plain response. *)
Theorem short_history_no_sequence_bonus :
  (∀ (tool_name : string) (w : World) (s : ServerState),
     server_state w = Some s →
     (length (recent_actions s) < 3)%nat →
     last3 (recent_actions s) = recent_actions s
     ∧ routine_trigger s = false
     ∧ awakening_trigger s = false
     ∧ ∃ ev w',
         check_hidden_combo tool_name w = (Returned ev, w')
         ∧ (ev, drop (length (effects w)) (effects w')) ∈ repetition_outcomes)
  ∧ (∀ (state : ServerState) (w0 : World) (acts : list Action)
       (i : nat) (a : Action) (st : Step),
       (i < 2)%nat →
       acts !! i = Some a →
       session acts (snd (initialize_state state w0)) !! i = Some st →
       (length (history (before st)) = i)
       ∧ plain_response (action_name a) (action_summary a) st).
Proof.
  split.
  - intros tool_name w s Hs Hlen.
    assert (Hslice : last3 (recent_actions s) = recent_actions s)
      by (apply last3_short; lia).
    assert (Hrt : routine_trigger s = false).
    { unfold routine_trigger. apply bool_decide_eq_false_2. rewrite Hslice.
      intros Heq. rewrite Heq in Hlen. cbn in Hlen. lia. }
    assert (Hat : awakening_trigger s = false).
    { unfold awakening_trigger. apply bool_decide_eq_false_2. rewrite Hslice.
      intros Heq. rewrite Heq in Hlen. cbn in Hlen. lia. }
    repeat (split; [assumption|]).
    destruct w as [st en dr ef]. cbn in Hs. subst st.
    rewrite check_hidden_combo_run, Hrt, Hat. unfold repetition_outcomes.
    destruct (coffee_trigger tool_name s).
    { eexists _, _. split; [reflexivity|]. cbn [effects].
      rewrite drop_app_length, !elem_of_cons. auto. }
    destruct (meme_trigger tool_name s).
    { eexists _, _. split; [reflexivity|]. cbn [effects].
      rewrite drop_app_length, !elem_of_cons. auto. }
    eexists _, _. split; [reflexivity|]. cbn [effects].
    rewrite drop_all, !elem_of_cons. auto.
  - intros state w0 acts i a st Hi Ha Hst.
    rewrite initialize_state_world in Hst.
    set (s0 := mkServerState (stress_level state) (boss_alert_level state) [] ∅) in *.
    set (w := mkWorld (Some s0) (entropy w0) (draws w0) (effects w0)) in *.
    assert (Hs0 : server_state w = Some s0) by reflexivity.
    assert (Hfirst : ∀ x r d,
              let s1 := kept_state (action_name x) r d s0 in
              coffee_trigger (action_name x) s1 = false
              ∧ routine_trigger s1 = false
              ∧ meme_trigger (action_name x) s1 = false
              ∧ awakening_trigger s1 = false).
    { intros x r d. cbn zeta.
      destruct (low_streak_triggers (action_name x) r d s0) as [Hc Hm];
        [cbn; rewrite lookup_empty; cbn; lia|].
      destruct (short_history_triggers (action_name x) r d s0) as [Hr Hw];
        [cbn; lia|].
      auto. }
    destruct acts as [|a0 acts]; [discriminate Ha|].
    destruct i as [|[|i]]; [| |lia].
    + injection Ha as ->.
      assert (st = step_of (invoke a) w) as ->
        by (change (Some (step_of (invoke a) w) = Some st) in Hst; congruence).
      split; [reflexivity|].
      apply (invoke_step_plain a w s0 Hs0), Hfirst.
    + destruct acts as [|a1 acts]; [discriminate Ha|]. injection Ha as ->.
      assert (st = step_of (invoke a) (after (step_of (invoke a0) w))) as ->
        by (change (Some (step_of (invoke a) (after (step_of (invoke a0) w))) = Some st)
              in Hst; congruence).
      destruct (invoke_step_plain a0 w s0 Hs0 (Hfirst a0))
        as (_ & r0 & d0 & _ & _ & Hs1).
      set (s1 := kept_state (action_name a0) r0 d0 s0) in *.
      split.
      { unfold history.
        change (before (step_of (invoke a) (after (step_of (invoke a0) w))))
          with (after (step_of (invoke a0) w)).
        rewrite Hs1. reflexivity. }
      apply (invoke_step_plain a _ s1 Hs1). intros r d. cbn zeta.
      destruct (low_streak_triggers (action_name a) r d s1) as [Hc Hm];
        [apply first_call_streaks|].
      destruct (short_history_triggers (action_name a) r d s1) as [Hr Hw];
        [cbn; lia|].
      auto.
Qed.

(** ** Before [initialize_state], empty ranges, the response *)

(** X1: while the global is unset every break tool, the detector and
    [format_response] raise [AttributeError] and leave the world as it was:
    nothing is logged, no draw is taken; once [initialize_state] has run,
    every break tool returns a response. *)
Theorem tools_need_initialize_state (w : World) :
  server_state w = None →
  (∀ a, invoke a w = (Raised AttributeError, w))
  ∧ (∀ tool_name summary stress_reduction,
       execute_break_tool tool_name summary stress_reduction w
       = (Raised AttributeError, w))
  ∧ (∀ tool_name, check_hidden_combo tool_name w = (Raised AttributeError, w))
  ∧ (∀ tool_name summary,
       format_response tool_name summary w = (Raised AttributeError, w))
  ∧ (∀ state a, ∃ text,
       fst (invoke a (snd (initialize_state state w))) = Returned text).
Proof.
  intros Hnone.
  assert (Hexec : ∀ tool_name summary stress_reduction,
            execute_break_tool tool_name summary stress_reduction w
            = (Raised AttributeError, w)).
  { intros. unfold execute_break_tool, bind, get_server_state.
    rewrite Hnone. reflexivity. }
  split; [intros a; rewrite invoke_eq; apply Hexec|].
  split; [exact Hexec|].
  split; [intros; unfold check_hidden_combo, bind, get_server_state;
          rewrite Hnone; reflexivity|].
  split; [intros; unfold format_response, bind, get_server_state;
          rewrite Hnone; reflexivity|].
  intros state a. rewrite initialize_state_world.
  destruct (invoke_step a
              (mkWorld (Some (mkServerState (stress_level state)
                                            (boss_alert_level state) [] ∅))
                       (entropy w) (draws w) (effects w))
              _ eq_refl)
    as (r & d & d' & s1 & s2 & _ & _ & _ & _ & Hres & _).
  eexists. exact Hres.
Qed.

(** X2: a call with an empty reduction range fails with [ValueError] before
    anything is decreased, drawn or recorded; the state is untouched, and
    the only trace is the 20 second sleep, which has already happened when
    the alert level was 5 or more. *)
Theorem empty_range_fails_after_sleeping
    (tool_name summary : string) (lo hi : Z) (w : World) (s : ServerState) :
  server_state w = Some s →
  hi < lo →
  execute_break_tool tool_name summary (lo, hi) w
  = (Raised ValueError,
     mkWorld (Some s) (entropy w) (draws w)
             (effects w ++ (if 5 <=? boss_alert_level s then [Sleep 20] else []))).
Proof.
  intros Hs Hrange. destruct w as [st en dr ef]. cbn in Hs. subst st.
  cbn [entropy draws effects].
  rewrite execute_break_tool_delay. run_monad.
  destruct (5 <=? boss_alert_level s); run_monad;
    rewrite after_delay_bad_range by exact Hrange; rewrite ?app_nil_r; reflexivity.
Qed.

Lemma append_assoc (a b c : string) : (a +:+ b) +:+ c = a +:+ b +:+ c.
Proof.
  induction a as [|x a IH]; [reflexivity|].
  change (String x ((a +:+ b) +:+ c) = String x (a +:+ b +:+ c)).
  f_equal. exact IH.
Qed.

Lemma detector_event_kept tool_name r d s :
  detector_event tool_name (kept_state tool_name r d s) = fired_event tool_name s.
Proof.
  unfold detector_event, fired_event. cbn zeta.
  rewrite coffee_trigger_kept, meme_trigger_kept.
  unfold routine_trigger, awakening_trigger. cbn [kept_state recent_actions].
  reflexivity.
Qed.

(** X4: a call that returns answers with the base response rendered from
    the state the call leaves, hidden event included; the text is that base
    response alone exactly when none of the four conditions holds on the
    counter and the history the call has just updated, and otherwise the
    base response, a blank line and the event of the first condition that
    holds; it always carries the line [Break Summary: ] with the caller's
    summary, so it is never empty. *)
Theorem response_carries_summary
    (tool_name summary : string) (lo hi : Z) (w : World) (s : ServerState) :
  server_state w = Some s →
  lo ≤ hi →
  let st := step_of (execute_break_tool tool_name summary (lo, hi)) w in
  ∃ base text,
    format_response tool_name summary (after st) = (Returned base, after st)
    ∧ result st = Returned text
    ∧ text = match fired_event tool_name s with
             | Some e => base +:+ nl +:+ nl +:+ e
             | None => base
             end
    ∧ (text = base ↔ fired_event tool_name s = None)
    ∧ (∃ pre post, text = pre +:+ "Break Summary: " +:+ summary +:+ post)
    ∧ text ≠ "".
Proof.
  intros Hs Hrange st. subst st.
  destruct w as [st en dr ef]. cbn in Hs. subst st.
  unfold step_of. rewrite (execute_break_tool_run _ _ _ _ _ _ _ _ Hrange).
  cbn [fst snd after result].
  set (s1 := run_state tool_name lo hi s en dr).
  set (s2 := detector_state tool_name (en (S (S dr))) s1).
  assert (Hev : detector_event tool_name s1 = fired_event tool_name s)
    by apply detector_event_kept.
  exists (base_text tool_name summary s2),
    (response_text (base_text tool_name summary s2) (detector_event tool_name s1)).
  split; [apply format_response_run|]. split; [reflexivity|].
  assert (Hshape : ∃ pre post,
            response_text (base_text tool_name summary s2) (detector_event tool_name s1)
            = pre +:+ "Break Summary: " +:+ summary +:+ post).
  { exists (get_full_response_message tool_name (boss_alert_level s2) +:+ nl +:+ nl).
    destruct (detector_event tool_name s1) as [e|]; cbn [response_text].
    - eexists. unfold base_text. rewrite !append_assoc. reflexivity.
    - eexists. unfold base_text. rewrite !append_assoc. reflexivity. }
  split; [rewrite <- Hev; reflexivity|].
  split; [|split; [exact Hshape|]].
  - rewrite <- Hev. split.
    + apply response_text_plain. apply detector_event_truthy.
    + intros ->. reflexivity.
  - destruct Hshape as (pre & post & ->). destruct pre; discriminate.
Qed.

(** ** Counters *)

Lemma run_combo_own tool_name lo hi s en dr d :
  combo_count (detector_state tool_name d (run_state tool_name lo hi s en dr))
    !! tool_name
  = Some (if (bool_decide (tool_name = "coffee_mission")
              && (7 <=? default 0 (combo_count s !! tool_name) + 1))
             || (bool_decide (tool_name = "show_meme")
                 && (5 <=? default 0 (combo_count s !! tool_name) + 1))
          then 0
          else default 0 (combo_count s !! tool_name) + 1).
Proof.
  rewrite detector_state_combo_eq, run_state_combo_eq. unfold run_state.
  rewrite coffee_trigger_kept, meme_trigger_kept.
  destruct (bool_decide (tool_name = "coffee_mission")
            && (7 <=? default 0 (combo_count s !! tool_name) + 1)); [reflexivity|].
  cbn [orb]. case_bool_decide as Hmeme; cbn [andb].
  - rewrite routine_trigger_other by (rewrite Hmeme; discriminate). cbn [negb andb].
    destruct (5 <=? _); reflexivity.
  - rewrite andb_false_r. reflexivity.
Qed.

(** X5: a call adds one to the counter of its own tool, whatever the tool,
    except that a [coffee_mission] call that brings the counter to 7 or more
    and a [show_meme] call that brings it to 5 or more leave it at 0; a tool
    never called before counts from 0. *)
Theorem own_counter_after_call
    (tool_name summary : string) (lo hi : Z) (w : World) (s : ServerState) :
  server_state w = Some s →
  lo ≤ hi →
  let w' := after (step_of (execute_break_tool tool_name summary (lo, hi)) w) in
  ∃ s',
    server_state w' = Some s'
    ∧ combo_count s' !! tool_name
      = Some (if (bool_decide (tool_name = "coffee_mission")
                  && (7 <=? streak tool_name w + 1))
                 || (bool_decide (tool_name = "show_meme")
                     && (5 <=? streak tool_name w + 1))
              then 0
              else streak tool_name w + 1).
Proof.
  intros Hs Hrange w'. subst w'.
  destruct w as [st en dr ef]. cbn in Hs. subst st.
  unfold step_of. cbn [after]. eexists.
  split; [apply execute_break_tool_state, Hrange|].
  unfold streak. cbn [server_state]. apply run_combo_own.
Qed.

(** X6: after any call the coffee counter is at most 6 and the meme counter
    at most 4, whatever they were before; and counters that were all
    non-negative stay so. *)
Theorem repetition_counters_bounded
    (tool_name summary : string) (lo hi : Z) (w : World) (s : ServerState) :
  server_state w = Some s →
  lo ≤ hi →
  let w' := after (step_of (execute_break_tool tool_name summary (lo, hi)) w) in
  streak "coffee_mission" w' ≤ 6
  ∧ streak "show_meme" w' ≤ 4
  ∧ ((∀ k, 0 ≤ streak k w) → ∀ k, 0 ≤ streak k w').
Proof.
  intros Hs Hrange w'. subst w'.
  destruct w as [st en dr ef]. cbn in Hs. subst st.
  unfold step_of. cbn [after].
  assert (Hk : ∀ k,
            streak k (snd (execute_break_tool tool_name summary (lo, hi)
                             (mkWorld (Some s) en dr ef)))
            = if decide (k = tool_name)
              then if (bool_decide (tool_name = "coffee_mission")
                       && (7 <=? default 0 (combo_count s !! tool_name) + 1))
                      || (bool_decide (tool_name = "show_meme")
                          && (5 <=? default 0 (combo_count s !! tool_name) + 1))
                   then 0
                   else default 0 (combo_count s !! tool_name) + 1
              else 0).
  { intros k. unfold streak.
    rewrite (execute_break_tool_state _ _ _ _ _ _ _ _ Hrange).
    destruct (decide (k = tool_name)) as [->|Hne].
    - rewrite run_combo_own. reflexivity.
    - rewrite run_keeps_others_zero by exact Hne.
      destruct (combo_count s !! k); reflexivity. }
  split; [|split].
  - rewrite Hk. destruct (decide _) as [<-|_]; [|lia].
    rewrite (bool_decide_eq_false_2 ("coffee_mission" = "show_meme")) by discriminate.
    rewrite bool_decide_eq_true_2 by reflexivity. cbn [andb orb].
    rewrite orb_false_r.
    destruct (7 <=? _) eqn:H7; [lia|]. apply Z.leb_gt in H7. lia.
  - rewrite Hk. destruct (decide _) as [<-|_]; [|lia].
    rewrite (bool_decide_eq_false_2 ("show_meme" = "coffee_mission")) by discriminate.
    rewrite bool_decide_eq_true_2 by reflexivity. cbn [andb orb].
    destruct (5 <=? _) eqn:H5; [lia|]. apply Z.leb_gt in H5. lia.
  - intros Hpos k. rewrite Hk. destruct (decide _) as [->|_]; [|lia].
    specialize (Hpos tool_name). unfold streak in Hpos. cbn [server_state] in Hpos.
    destruct (_ || _); lia.
Qed.

Lemma bump_combo_dom (tool_name : string) (m : gmap string Z) :
  dom (bump_combo tool_name m) = {[tool_name]} ∪ dom m.
Proof. unfold bump_combo. destruct (m !! tool_name); apply dom_insert_L. Qed.

Lemma reset_other_combos_dom (tool_name : string) (m : gmap string Z) :
  dom (reset_other_combos tool_name m) = dom m.
Proof.
  apply set_eq. intros k. rewrite !elem_of_dom.
  destruct (decide (k = tool_name)) as [->|Hne].
  - rewrite reset_other_combos_lookup. reflexivity.
  - rewrite reset_other_combos_lookup_ne by exact Hne.
    destruct (m !! k); cbn; split; intros [? ?]; eauto; discriminate.
Qed.

Lemma insert_present_dom (k : string) (v : Z) (m : gmap string Z) :
  is_Some (m !! k) → dom (<[k := v]> m) = dom m.
Proof.
  intros Hk. rewrite dom_insert_L. apply elem_of_dom in Hk.
  apply set_eq. intros x. rewrite elem_of_union, elem_of_singleton.
  split; [intros [->|Hx]; assumption|auto].
Qed.

Lemma detector_state_dom tool_name d s :
  dom (combo_count (detector_state tool_name d s)) = dom (combo_count s).
Proof.
  unfold detector_state.
  destruct (coffee_trigger tool_name s) eqn:Hc.
  { cbn [coffee_state combo_count]. apply insert_present_dom.
    unfold coffee_trigger in Hc. apply andb_true_iff in Hc as [_ Hc].
    apply Z.leb_le in Hc. destruct (combo_count s !! tool_name); [eauto|].
    cbn in Hc. lia. }
  destruct (routine_trigger s); [reflexivity|].
  destruct (meme_trigger tool_name s) eqn:Hm.
  { cbn [meme_state combo_count]. apply insert_present_dom.
    unfold meme_trigger in Hm. apply andb_true_iff in Hm as [_ Hm].
    apply Z.leb_le in Hm. destruct (combo_count s !! tool_name); [eauto|].
    cbn in Hm. lia. }
  destruct (awakening_trigger s); reflexivity.
Qed.

Lemma invoke_dom (a : Action) (w : World) (s : ServerState) :
  server_state w = Some s →
  ∃ s', server_state (after (step_of (invoke a) w)) = Some s'
        ∧ dom (combo_count s') = {[action_name a]} ∪ dom (combo_count s).
Proof.
  intros Hs.
  destruct (invoke_step a w s Hs)
    as (r & d & d' & s1 & s2 & _ & Hs1 & Hs2 & Hafter & _ & _).
  exists s2. split; [exact Hafter|].
  rewrite Hs2, detector_state_dom, Hs1. cbn [kept_state combo_count].
  rewrite reset_other_combos_dom. apply bump_combo_dom.
Qed.

(** X7: the detector never adds a key to [combo_count], and a call adds
    only the key of its own tool; so after a session the keys are the keys
    there were before together with the names of the tools called, and in a
    new session exactly those names. *)
Theorem counter_keys_are_tools_called (acts : list Action) :
  ∀ (w : World) (s : ServerState),
    server_state w = Some s →
    (∀ tool_name, ∃ s',
       server_state (snd (check_hidden_combo tool_name w)) = Some s'
       ∧ dom (combo_count s') = dom (combo_count s))
    ∧ ∃ s',
        server_state (session_end acts w) = Some s'
        ∧ dom (combo_count s')
          = dom (combo_count s) ∪ list_to_set (action_name <$> acts).
Proof.
  induction acts as [|a acts IH]; intros w s Hs.
  - split.
    + intros tool_name. destruct w as [st en dr ef]. cbn in Hs. subst st.
      rewrite check_hidden_combo_detector. eexists.
      split; [reflexivity|apply detector_state_dom].
    + exists s. split; [exact Hs|]. cbn. symmetry. apply union_empty_r_L.
  - split; [exact (proj1 (IH w s Hs))|].
    destruct (invoke_dom a w s Hs) as (s1 & Hs1 & Hd1).
    destruct (IH _ s1 Hs1) as (_ & s' & Hs' & Hd').
    exists s'. split; [exact Hs'|].
    rewrite Hd', Hd1. cbn [fmap list_fmap list_to_set].
    rewrite (union_comm_L {[action_name a]} (dom (combo_count s))).
    rewrite <- (assoc_L (∪)). reflexivity.
Qed.

(** ** Five memes *)

Lemma meme_step (w : World) (s : ServerState) :
  server_state w = Some s →
  let st := step_of (invoke ShowMeme) w in
  (∃ s', server_state (after st) = Some s')
  ∧ (streak "show_meme" w + 1 < 5 → ordinary_meme_step st)
  ∧ (5 ≤ streak "show_meme" w + 1 → meme_warning_step st).
Proof.
  intros Hs st.
  destruct (invoke_step ShowMeme w s Hs)
    as (r & d & d' & s1 & s2 & Hr & Hs1 & Hs2 & Hafter & Hres & Hnew).
  fold st in Hafter, Hres, Hnew. cbn [action_name action_summary action_range fst snd] in *.
  assert (Hbefore : before st = w) by reflexivity.
  assert (Hstreak : streak "show_meme" w = default 0 (combo_count s !! "show_meme"))
    by (unfold streak; rewrite Hs; reflexivity).
  pose proof (meme_trigger_kept "show_meme" r d s) as Hm.
  rewrite bool_decide_eq_true_2 in Hm by reflexivity. cbn [andb] in Hm.
  rewrite <- Hs1, <- Hstreak in Hm.
  assert (Hcf : coffee_trigger "show_meme" s1 = false) by reflexivity.
  assert (Hrt : routine_trigger s1 = false)
    by (rewrite Hs1; apply routine_trigger_other; discriminate).
  split; [eauto|]. split; intros Hlt.
  - assert (Hmt : meme_trigger "show_meme" s1 = false)
      by (rewrite Hm; apply Z.leb_gt; lia).
    assert (Hat : awakening_trigger s1 = false)
      by (rewrite Hs1; apply awakening_trigger_other; discriminate).
    unfold detector_event in Hres. unfold detector_effects in Hnew.
    unfold detector_state in Hs2. rewrite Hcf, Hrt, Hmt, Hat in *.
    rewrite app_nil_r in Hnew. subst s2.
    split; [eapply step_plain; eassumption|]. split.
    + rewrite Hbefore. unfold streak at 1. rewrite Hafter, Hs1.
      cbn [kept_state combo_count].
      rewrite reset_other_combos_lookup, bump_combo_lookup, Hstreak. reflexivity.
    + exists s, r. rewrite Hbefore. auto.
  - assert (Hmt : meme_trigger "show_meme" s1 = true)
      by (rewrite Hm; apply Z.leb_le; lia).
    unfold detector_event in Hres. unfold detector_effects in Hnew.
    unfold detector_state in Hs2. rewrite Hcf, Hrt, Hmt in *. subst s2.
    split; [eapply step_bonus; eassumption|]. split.
    + unfold streak. rewrite Hafter. cbn [meme_state combo_count].
      rewrite lookup_insert_eq. reflexivity.
    + exists s, r. rewrite Hbefore. repeat split; try tauto.
      unfold stress. rewrite Hafter, Hs1. reflexivity.
Qed.

Lemma meme_sessions (n : nat) :
  ∀ (w : World) (s : ServerState) (i : nat) (st : Step),
    server_state w = Some s →
    0 ≤ streak "show_meme" w < 5 →
    session (replicate n ShowMeme) w !! i = Some st →
    if decide ((streak "show_meme" w + Z.of_nat i + 1) mod 5 = 0)
    then meme_warning_step st
    else ordinary_meme_step st.
Proof.
  induction n as [|n IH]; intros w s i st Hs Hc Hst; [discriminate Hst|].
  cbn [replicate session] in Hst.
  destruct (meme_step w s Hs) as ((s' & Hs') & Hordinary & Hbonus).
  destruct i as [|i].
  - cbn in Hst. injection Hst as <-.
    replace (streak "show_meme" w + Z.of_nat 0 + 1)
      with (streak "show_meme" w + 1) by lia.
    destruct (decide (streak "show_meme" w + 1 = 5)) as [H5|H5].
    + rewrite H5. cbn. apply Hbonus. lia.
    + rewrite Z.mod_small by lia. rewrite decide_False by lia.
      apply Hordinary. lia.
  - cbn [lookup list_lookup] in Hst.
    change (session (replicate n ShowMeme)
              (after (step_of (invoke ShowMeme) w)) !! i = Some st) in Hst.
    destruct (decide (streak "show_meme" w + 1 = 5)) as [H5|H5].
    + assert (Hz : streak "show_meme" (after (step_of (invoke ShowMeme) w)) = 0)
        by (apply Hbonus; lia).
      specialize (IH _ s' i st Hs' ltac:(lia) Hst). rewrite Hz in IH.
      replace (streak "show_meme" w + Z.of_nat (S i) + 1)
        with (0 + Z.of_nat i + 1 + 1 * 5) by lia.
      rewrite Z_mod_plus_full. exact IH.
    + assert (Hz : streak "show_meme" (after (step_of (invoke ShowMeme) w))
                   = streak "show_meme" w + 1)
        by (apply Hordinary; lia).
      specialize (IH _ s' i st Hs' ltac:(lia) Hst). rewrite Hz in IH.
      replace (streak "show_meme" w + Z.of_nat (S i) + 1)
        with (streak "show_meme" w + 1 + Z.of_nat i + 1) by lia.
      exact IH.
Qed.

(** X8: in a run of consecutive [show_meme] calls that starts with the meme
    counter at 0, call number [i + 1] fires the addiction warning exactly
    when [i + 1] is a multiple of 5; the firing call makes one more
    escalation attempt, no further stress reduction, and puts the counter
    back to 0; the other calls give the plain response. *)
Theorem five_memes_fire_once
    (w : World) (s : ServerState) (n i : nat) (st : Step) :
  server_state w = Some s →
  streak "show_meme" w = 0 →
  session (replicate n ShowMeme) w !! i = Some st →
  if decide ((Z.of_nat i + 1) mod 5 = 0)
  then meme_warning_step st
  else ordinary_meme_step st
       ∧ ¬ bonus_response meme_event "show_meme"
             "Meme appreciation session - laughter therapy" st.
Proof.
  intros Hs Hzero Hst.
  pose proof (meme_sessions n w s i st Hs ltac:(lia) Hst) as H.
  rewrite Hzero in H. replace (0 + Z.of_nat i + 1) with (Z.of_nat i + 1) in H by lia.
  destruct (decide ((Z.of_nat i + 1) mod 5 = 0)); [exact H|].
  split; [exact H|]. apply plain_not_bonus, H.
Qed.

(** ** Which call can fire what *)

Lemma routine_trigger_last s :
  routine_trigger s = true → last (recent_actions s) = Some "watch_netflix".
Proof.
  unfold routine_trigger. intros H. apply bool_decide_eq_true_1 in H.
  rewrite <- last3_last, H. reflexivity.
Qed.

Lemma awakening_trigger_last s :
  awakening_trigger s = true → last (recent_actions s) = Some "take_a_break".
Proof.
  unfold awakening_trigger. intros H. apply bool_decide_eq_true_1 in H.
  rewrite <- last3_last, H. reflexivity.
Qed.

Lemma coffee_trigger_name tool_name s :
  coffee_trigger tool_name s = true → tool_name = "coffee_mission".
Proof.
  unfold coffee_trigger. intros H. apply andb_true_iff in H as [H _].
  apply bool_decide_eq_true_1 in H. exact H.
Qed.

Lemma meme_trigger_name tool_name s :
  meme_trigger tool_name s = true → tool_name = "show_meme".
Proof.
  unfold meme_trigger. intros H. apply andb_true_iff in H as [H _].
  apply bool_decide_eq_true_1 in H. exact H.
Qed.

Lemma holding_perm (ts ts' : list Trigger) tool_name s :
  ts ≡ₚ ts' → holding ts tool_name s = holding ts' tool_name s.
Proof.
  induction 1 as [|x l l' _ IH|x y l|l l' l'' _ IH1 _ IH2]; cbn [holding].
  - reflexivity.
  - rewrite IH. reflexivity.
  - lia.
  - rewrite IH1. exact IH2.
Qed.

Lemma first_match_perm (ts ts' : list Trigger) tool_name s :
  ts ≡ₚ ts' →
  (holding ts tool_name s ≤ 1)%nat →
  first_match ts tool_name s = first_match ts' tool_name s.
Proof.
  induction 1 as [|x l l' Hperm IH|x y l|l l' l'' Hperm1 IH1 Hperm2 IH2];
    cbn [holding first_match]; intros Hone.
  - reflexivity.
  - destruct (holds x tool_name s); [reflexivity|]. apply IH. exact Hone.
  - destruct (holds x tool_name s), (holds y tool_name s); try reflexivity. lia.
  - rewrite IH1 by exact Hone. apply IH2.
    rewrite <- (holding_perm l l') by exact Hperm1. exact Hone.
Qed.

(** X9: when the last entry of the history is the tool being checked, as
    it is whenever [execute_break_tool] calls the detector, at most one of
    the four conditions holds, so the triggers evaluated in any order give
    what [check_hidden_combo] gives. *)
Theorem trigger_order_is_immaterial (tool_name : string) (w : World) (s : ServerState) :
  server_state w = Some s →
  last (recent_actions s) = Some tool_name →
  (holding priority_order tool_name s ≤ 1)%nat
  ∧ (∀ ts, ts ≡ₚ priority_order →
           check_hidden_combo tool_name w = first_match ts tool_name s w)
  ∧ (∀ h, last (record_action tool_name h) = Some tool_name).
Proof.
  intros Hs Hlast.
  assert (Hone : (holding priority_order tool_name s ≤ 1)%nat).
  { cbn [holding priority_order holds caffeine_repetition
           bathroom_email_video_sequence meme_repetition
           thinking_caffeine_break_sequence].
    destruct (coffee_trigger tool_name s) eqn:Hc;
      [apply coffee_trigger_name in Hc|];
    (destruct (routine_trigger s) eqn:Hr;
       [apply routine_trigger_last in Hr; rewrite Hlast in Hr|]);
    (destruct (meme_trigger tool_name s) eqn:Hm;
       [apply meme_trigger_name in Hm|]);
    (destruct (awakening_trigger s) eqn:Ha;
       [apply awakening_trigger_last in Ha; rewrite Hlast in Ha|]);
    try (cbn; lia); congruence. }
  split; [exact Hone|]. split; [|intros h; apply record_action_last].
  intros ts Hperm.
  rewrite <- (first_match_perm priority_order ts) by (symmetry in Hperm; assumption).
  unfold check_hidden_combo, bind, get_server_state. rewrite Hs.
  cbn [first_match priority_order holds fire caffeine_repetition
       bathroom_email_video_sequence meme_repetition
       thinking_caffeine_break_sequence].
  unfold coffee_trigger, routine_trigger, meme_trigger, awakening_trigger.
  reflexivity.
Qed.

Lemma kept_effects_counts r s :
  count_effects is_reduction (kept_effects r s) = 1%nat
  ∧ count_effects is_escalation (kept_effects r s) = 1%nat.
Proof.
  unfold kept_effects. rewrite !count_effects_app.
  destruct (5 <=? boss_alert_level s); split; reflexivity.
Qed.

(** X10: [bathroom_break], [urgent_call], [deep_thinking] and
    [email_organizing] never fire a hidden event, whatever the history and
    the counters: the call answers with the plain response, makes one
    stress reduction and one escalation attempt, and adds one to its own
    counter. *)
Theorem quiet_tools_never_fire (a : Action) (w : World) (s : ServerState) :
  a ∈ quiet_tools →
  server_state w = Some s →
  let st := step_of (invoke a) w in
  plain_response (action_name a) (action_summary a) st
  ∧ one_reduction_one_escalation st
  ∧ streak (action_name a) (after st) = streak (action_name a) w + 1.
Proof.
  intros Ha Hs st.
  assert (Hnames : action_name a ≠ "coffee_mission" ∧ action_name a ≠ "watch_netflix"
                   ∧ action_name a ≠ "show_meme" ∧ action_name a ≠ "take_a_break").
  { unfold quiet_tools in Ha. rewrite !elem_of_cons, elem_of_nil in Ha.
    destruct Ha as [->|[->|[->|[->|[]]]]]; repeat split; discriminate. }
  destruct Hnames as (Hn1 & Hn2 & Hn3 & Hn4).
  destruct (invoke_step_plain a w s Hs) as (Hplain & r & d & _ & Hnew & Hafter).
  { intros r d. cbn zeta.
    auto using not_coffee_trigger, not_meme_trigger, routine_trigger_other,
      awakening_trigger_other. }
  fold st in Hplain, Hnew, Hafter.
  split; [exact Hplain|]. split.
  - unfold one_reduction_one_escalation. rewrite Hnew. apply kept_effects_counts.
  - unfold streak. rewrite Hafter, Hs. cbn [kept_state combo_count].
    rewrite reset_other_combos_lookup, bump_combo_lookup. reflexivity.
Qed.

Lemma last3_after_recording (x : string) (h : list string) :
  last3 (record_action x h) = last2 h ++ [x].
Proof.
  unfold record_action, pop0, last3, last2. rewrite length_app. cbn [length].
  destruct (10 <? length h + 1)%nat eqn:Hlen.
  - apply Nat.ltb_lt in Hlen. destruct h as [|a h]; [cbn in Hlen; lia|].
    cbn [app tail length] in *. rewrite length_app. cbn [length].
    replace (length h + 1 - 3)%nat with (length h - 2)%nat by lia.
    rewrite drop_app_le by lia.
    replace (S (length h) - 2)%nat with (S (length h - 2)) by lia.
    reflexivity.
  - apply Nat.ltb_ge in Hlen. rewrite length_app. cbn [length].
    replace (length h + 1 - 3)%nat with (length h - 2)%nat by lia.
    rewrite drop_app_le by lia. reflexivity.
Qed.

(** X11: a [watch_netflix] call fires the master routine exactly when the
    two entries recorded before it are [bathroom_break],
    [email_organizing]; in every other case it gives the plain response and
    makes no further call. *)
Theorem netflix_fires_after_bathroom_email (w : World) (s : ServerState) :
  server_state w = Some s →
  let st := step_of (invoke WatchNetflix) w in
  if bool_decide (last2 (recent_actions s) = ["bathroom_break"; "email_organizing"])
  then master_routine_step st
  else plain_response "watch_netflix"
         "Netflix and chill - quality entertainment time" st
       ∧ ∃ r, 20 ≤ r ≤ 40 ∧ new_effects st = kept_effects r s.
Proof.
  intros Hs st.
  assert (Hrt : ∀ r d,
            routine_trigger (kept_state "watch_netflix" r d s)
            = bool_decide (last2 (recent_actions s)
                           = ["bathroom_break"; "email_organizing"])).
  { intros r d. unfold routine_trigger. cbn [kept_state recent_actions].
    rewrite last3_after_recording. apply bool_decide_ext.
    split; [intros H|intros ->; reflexivity].
    apply (app_inj_tail _ ["bathroom_break"; "email_organizing"]) in H.
    apply H. }
  case_bool_decide as Hprev.
  - destruct (invoke_step WatchNetflix w s Hs)
      as (r & d & d' & s1 & s2 & Hr & Hs1 & Hs2 & Hafter & Hres & Hnew).
    fold st in Hafter, Hres, Hnew.
    cbn [action_name action_summary action_range fst snd] in *.
    assert (Hcf : coffee_trigger "watch_netflix" s1 = false) by reflexivity.
    assert (Hr1 : routine_trigger s1 = true)
      by (rewrite Hs1; apply Hrt).
    unfold detector_event in Hres. unfold detector_effects in Hnew.
    unfold detector_state in Hs2. rewrite Hcf, Hr1 in *. subst s2.
    split; [eapply step_bonus; eassumption|].
    exists s, r, (routine_state s1). subst s1.
    repeat split; try tauto; assumption.
  - destruct (invoke_step_plain WatchNetflix w s Hs) as (Hplain & r & d & Hr & Hnew & _).
    { intros r d. cbn zeta. cbn [action_name].
      split; [reflexivity|]. split; [apply Hrt|].
      split; [reflexivity|]. apply awakening_trigger_other. discriminate. }
    split; [exact Hplain|]. exists r. auto.
Qed.

(** X12: a [take_a_break] call fires the awakening exactly when the two
    entries recorded before it are [deep_thinking], [coffee_mission]; in
    every other case it gives the plain response and makes no further
    call. *)
Theorem break_fires_after_thinking_coffee (w : World) (s : ServerState) :
  server_state w = Some s →
  let st := step_of (invoke TakeABreak) w in
  if bool_decide (last2 (recent_actions s) = ["deep_thinking"; "coffee_mission"])
  then awakening_step st
  else plain_response "take_a_break" "Basic break - recharging AI batteries" st
       ∧ ∃ r, 5 ≤ r ≤ 20 ∧ new_effects st = kept_effects r s.
Proof.
  intros Hs st.
  assert (Hat : ∀ r d,
            awakening_trigger (kept_state "take_a_break" r d s)
            = bool_decide (last2 (recent_actions s)
                           = ["deep_thinking"; "coffee_mission"])).
  { intros r d. unfold awakening_trigger. cbn [kept_state recent_actions].
    rewrite last3_after_recording. apply bool_decide_ext.
    split; [intros H|intros ->; reflexivity].
    apply (app_inj_tail _ ["deep_thinking"; "coffee_mission"]) in H.
    apply H. }
  case_bool_decide as Hprev.
  - destruct (invoke_step TakeABreak w s Hs)
      as (r & d & d' & s1 & s2 & Hr & Hs1 & Hs2 & Hafter & Hres & Hnew).
    fold st in Hafter, Hres, Hnew.
    cbn [action_name action_summary action_range fst snd] in *.
    assert (Hcf : coffee_trigger "take_a_break" s1 = false) by reflexivity.
    assert (Hmt : meme_trigger "take_a_break" s1 = false) by reflexivity.
    assert (Hrt : routine_trigger s1 = false)
      by (rewrite Hs1; apply routine_trigger_other; discriminate).
    assert (Ha1 : awakening_trigger s1 = true)
      by (rewrite Hs1; apply Hat).
    unfold detector_event in Hres. unfold detector_effects in Hnew.
    unfold detector_state in Hs2. rewrite Hcf, Hrt, Hmt, Ha1 in *. subst s2.
    split; [eapply step_bonus; eassumption|]. split.
    + unfold stress. rewrite Hafter. reflexivity.
    + exists s, r. auto.
  - destruct (invoke_step_plain TakeABreak w s Hs) as (Hplain & r & d & Hr & Hnew & _).
    { intros r d. cbn zeta. cbn [action_name].
      split; [reflexivity|].
      split; [apply routine_trigger_other; discriminate|].
      split; [reflexivity|]. apply Hat. }
    split; [exact Hplain|]. exists r. auto.
Qed.

(** X13: every call appends its tool to the history and drops at most the
    oldest entry, and the detector leaves the history alone: the last entry
    is the tool just called; below 10 entries the history grows by one, and
    from 10 entries on it keeps its length, so a history longer than 10 is
    never cut back to 10. *)
Theorem history_after_call
    (tool_name summary : string) (lo hi : Z) (w : World) (s : ServerState) :
  server_state w = Some s →
  lo ≤ hi →
  let w' := after (step_of (execute_break_tool tool_name summary (lo, hi)) w) in
  history w'
  = (if (length (recent_actions s) <? 10)%nat
     then recent_actions s else tail (recent_actions s)) ++ [tool_name]
  ∧ last (history w') = Some tool_name
  ∧ length (history w')
    = (if (length (recent_actions s) <? 10)%nat
       then S (length (recent_actions s)) else length (recent_actions s)).
Proof.
  intros Hs Hrange w'. subst w'.
  destruct w as [st en dr ef]. cbn in Hs. subst st.
  unfold step_of, history. cbn [after].
  rewrite (execute_break_tool_state _ _ _ _ _ _ _ _ Hrange).
  rewrite detector_state_recent. unfold run_state. cbn [kept_state recent_actions].
  assert (Heq : record_action tool_name (recent_actions s)
                = (if (length (recent_actions s) <? 10)%nat
                   then recent_actions s else tail (recent_actions s)) ++ [tool_name]).
  { unfold record_action, pop0. rewrite length_app. cbn [length].
    destruct (length (recent_actions s) <? 10)%nat eqn:Hlt.
    - apply Nat.ltb_lt in Hlt.
      destruct (10 <? _)%nat eqn:H; [apply Nat.ltb_lt in H; lia|reflexivity].
    - apply Nat.ltb_ge in Hlt.
      destruct (10 <? _)%nat eqn:H; [|apply Nat.ltb_ge in H; lia].
      destruct (recent_actions s); [cbn in Hlt; lia|reflexivity]. }
  split; [exact Heq|]. split; [apply record_action_last|].
  rewrite Heq, length_app. cbn [length].
  destruct (length (recent_actions s) <? 10)%nat eqn:Hlt; [lia|].
  apply Nat.ltb_ge in Hlt. destruct (recent_actions s); cbn [tail length] in *; lia.
Qed.

End Tools.

(** * Concrete runs *)

(** The sample world is the one [initialize_state] makes. *)
Lemma sample_world_initialized :
  snd (initialize_state sample_state unset_world) = sample_world.
Proof. reflexivity. Qed.

(** A tool called before [initialize_state] fails on the first attribute
    it reads. *)
Example unset_world_raises :
  fst (take_a_break sample_escalate sample_message sample_stress_bar
         sample_alert_visual sample_free_art sample_alert_art unset_world)
  = Raised AttributeError.
Proof. reflexivity. Qed.

(** [random.randint] refuses an empty range. *)
Example empty_range_raises :
  fst (execute_break_tool sample_escalate sample_message sample_stress_bar
         sample_alert_visual sample_free_art sample_alert_art
         "take_a_break" "Basic break - recharging AI batteries" (5, 2) sample_world)
  = Raised ValueError.
Proof. reflexivity. Qed.

(** The coffee counter over eight coffees. *)
Example eight_coffees_streaks :
  map (fun st => streak "coffee_mission" (after st))
      (session sample_escalate sample_message sample_stress_bar
         sample_alert_visual sample_free_art sample_alert_art
         (replicate 8 CoffeeMission) sample_world)
  = [1; 2; 3; 4; 5; 6; 0; 1].
Proof. vm_compute. reflexivity. Qed.

(** Stress and history over bathroom, email, netflix. *)
Example routine_run :
  map (fun st => (stress (after st), history (after st)))
      (session sample_escalate sample_message sample_stress_bar
         sample_alert_visual sample_free_art sample_alert_art
         trio sample_world)
  = [ (60, ["bathroom_break"]);
      (37, ["bathroom_break"; "email_organizing"]);
      (0, ["bathroom_break"; "email_organizing"; "watch_netflix"]) ].
Proof. vm_compute. reflexivity. Qed.


(** C4 as stated fails on eleven coffees in a new session: the identifier
    called first is still in the history. *)
Lemma eleven_coffees_keep_identifier :
  history sample_world = []
  ∧ history
      (session_end sample_escalate sample_message sample_stress_bar
         sample_alert_visual sample_free_art sample_alert_art
         (CoffeeMission :: replicate 10 CoffeeMission) sample_world)
    = replicate 10 "coffee_mission"
  ∧ ¬ first_identifier_absent sample_escalate sample_message sample_stress_bar
        sample_alert_visual sample_free_art sample_alert_art
        CoffeeMission (replicate 10 CoffeeMission) sample_world.
Proof.
  assert (Hh : history
      (session_end sample_escalate sample_message sample_stress_bar
         sample_alert_visual sample_free_art sample_alert_art
         (CoffeeMission :: replicate 10 CoffeeMission) sample_world)
    = replicate 10 "coffee_mission") by (vm_compute; reflexivity).
  split; [reflexivity|]. split; [exact Hh|].
  unfold first_identifier_absent. rewrite Hh. intros Hnot. apply Hnot. left.
Qed.

(** A coffee on a new session: no condition holds, nothing changes. *)
Lemma detector_no_match_is_identity_witness :
  check_hidden_combo sample_escalate sample_free_art sample_alert_art
    "coffee_mission" sample_world
  = (Returned None, sample_world).
Proof.
  apply (detector_no_match_is_identity sample_escalate sample_free_art
           sample_alert_art "coffee_mission" sample_world sample_state).
  - reflexivity.
  - intros [_ H]. vm_compute in H. apply H. reflexivity.
  - intros H. discriminate H.
  - intros [H _]. discriminate H.
  - intros H. discriminate H.
Defined.


(** A meme after three coffees: the coffee counter, 3 before the call, is 0
    after it; and a meme right after a coffee leaves the coffee counter
    present and 0. *)
Lemma streak_counters_exclusive_witness :
  (∃ s',
     server_state
       (after
          (step_of
             (execute_break_tool sample_escalate sample_message sample_stress_bar sample_alert_visual
       sample_free_art sample_alert_art "show_meme"
                "Meme appreciation session - laughter therapy" (10, 25))
             (mkWorld (Some (mkServerState 60 1
                               ["coffee_mission"; "coffee_mission"; "coffee_mission"]
                               (<["coffee_mission" := 3]> ∅)))
                      sample_entropy 6 [])))
     = Some s'
     ∧ (∀ k v, combo_count s' !! k = Some v → v ≠ 0 → k = "show_meme")
     ∧ combo_count s' !! "coffee_mission" = Some 0)
  ∧ (∃ s2,
       server_state
         (after
            (step_of
               (execute_break_tool sample_escalate sample_message sample_stress_bar sample_alert_visual
       sample_free_art sample_alert_art "show_meme"
                  "Meme appreciation session - laughter therapy" (10, 25))
               (after
                  (step_of
                     (execute_break_tool sample_escalate sample_message sample_stress_bar sample_alert_visual
       sample_free_art sample_alert_art "coffee_mission"
                        "Coffee mission with office tour" (10, 30))
                     (mkWorld (Some (mkServerState 60 1
                                       ["coffee_mission"; "coffee_mission";
                                        "coffee_mission"]
                                       (<["coffee_mission" := 3]> ∅)))
                              sample_entropy 6 [])))))
       = Some s2
       ∧ combo_count s2 !! "coffee_mission" = Some 0).
Proof.
  destruct (streak_counters_exclusive sample_escalate sample_message sample_stress_bar sample_alert_visual
       sample_free_art sample_alert_art "show_meme"
              "Meme appreciation session - laughter therapy" 10 25
              (mkWorld (Some (mkServerState 60 1
                                ["coffee_mission"; "coffee_mission"; "coffee_mission"]
                                (<["coffee_mission" := 3]> ∅)))
                       sample_entropy 6 [])
              (mkServerState 60 1
                 ["coffee_mission"; "coffee_mission"; "coffee_mission"]
                 (<["coffee_mission" := 3]> ∅))
              eq_refl ltac:(lia))
    as [(s' & Hs' & Hone & Hothers) Hprior].
  split.
  - exists s'. split; [exact Hs'|]. split; [exact Hone|].
    rewrite Hothers by discriminate. vm_compute. reflexivity.
  - exact (Hprior "coffee_mission" "Coffee mission with office tour" 10 30
             ltac:(lia) ltac:(discriminate)).
Defined.

(** Netflix with the boss alert level at 5: the call sleeps first. *)
Lemma delay_exactly_when_alert_high_witness :
  execute_break_tool sample_escalate sample_message sample_stress_bar
    sample_alert_visual sample_free_art sample_alert_art
    "watch_netflix" "Netflix and chill - quality entertainment time" (20, 40)
    (mkWorld (Some (mkServerState 80 5 [] ∅)) sample_entropy 0 [])
  = after_delay sample_escalate sample_message sample_stress_bar
      sample_alert_visual sample_free_art sample_alert_art
      "watch_netflix" "Netflix and chill - quality entertainment time" (20, 40)
      (mkWorld (Some (mkServerState 80 5 [] ∅)) sample_entropy 0 [Sleep 20])
  ∧ ∃ rest,
      new_effects
        (step_of
           (execute_break_tool sample_escalate sample_message sample_stress_bar
              sample_alert_visual sample_free_art sample_alert_art
              "watch_netflix" "Netflix and chill - quality entertainment time" (20, 40))
           (mkWorld (Some (mkServerState 80 5 [] ∅)) sample_entropy 0 []))
      = Sleep 20 :: rest
      ∧ count_effects is_sleep rest = 0%nat.
Proof.
  pose proof (delay_exactly_when_alert_high sample_escalate sample_message
                sample_stress_bar sample_alert_visual sample_free_art
                sample_alert_art "watch_netflix"
                "Netflix and chill - quality entertainment time" (20, 40)
                (mkWorld (Some (mkServerState 80 5 [] ∅)) sample_entropy 0 [])
                (mkServerState 80 5 [] ∅) eq_refl) as H.
  cbv zeta in H. destruct H as [Hhigh _].
  exact (Hhigh ltac:(cbn; lia)).
Defined.

(** The seventh coffee of a new session. *)
Lemma seven_coffees_fire_once_witness :
  ∃ st,
    session sample_escalate sample_message sample_stress_bar
      sample_alert_visual sample_free_art sample_alert_art
      (replicate 7 CoffeeMission) sample_world !! 6%nat = Some st
    ∧ overconsumption_step sample_message sample_stress_bar sample_alert_visual
        sample_alert_art st.
Proof.
  eexists. split; [reflexivity|].
  exact (seven_coffees_fire_once sample_escalate sample_message sample_stress_bar
           sample_alert_visual sample_free_art sample_alert_art
           sample_world sample_state 7 6 _ eq_refl eq_refl eq_refl).
Defined.

(** Thinking, coffee, break on a new session. *)
Lemma awakening_sets_stress_to_zero_witness :
  ∃ st,
    session sample_escalate sample_message sample_stress_bar
      sample_alert_visual sample_free_art sample_alert_art
      [DeepThinking; CoffeeMission; TakeABreak] sample_world !! 2%nat = Some st
    ∧ awakening_step sample_message sample_stress_bar sample_alert_visual
        sample_free_art st.
Proof.
  eexists. split; [reflexivity|].
  exact (awakening_sets_stress_to_zero sample_escalate sample_message
           sample_stress_bar sample_alert_visual sample_free_art sample_alert_art
           sample_world sample_state _ eq_refl eq_refl).
Defined.

(** Bathroom, email, netflix on a new session. *)
Lemma master_routine_needs_exact_order_witness :
  ∃ st,
    session sample_escalate sample_message sample_stress_bar
      sample_alert_visual sample_free_art sample_alert_art
      trio sample_world !! 2%nat = Some st
    ∧ master_routine_step sample_message sample_stress_bar sample_alert_visual
        sample_free_art st.
Proof.
  eexists. split; [reflexivity|].
  exact (proj1 (master_routine_needs_exact_order sample_escalate sample_message
                  sample_stress_bar sample_alert_visual sample_free_art
                  sample_alert_art sample_world sample_state eq_refl)
               _ eq_refl).
Defined.

(** One meme, then ten urgent calls: the meme is gone from the history. *)
Lemma history_keeps_last_ten_witness :
  history
    (session_end sample_escalate sample_message sample_stress_bar
       sample_alert_visual sample_free_art sample_alert_art
       (ShowMeme :: replicate 10 UrgentCall) sample_world)
  = map action_name (replicate 10 UrgentCall)
  ∧ first_identifier_absent sample_escalate sample_message sample_stress_bar
      sample_alert_visual sample_free_art sample_alert_art
      ShowMeme (replicate 10 UrgentCall) sample_world.
Proof.
  destruct (proj2 (history_keeps_last_ten sample_escalate sample_message
                     sample_stress_bar sample_alert_visual sample_free_art
                     sample_alert_art sample_world sample_state eq_refl
                     ltac:(cbn; lia))
                  eq_refl ShowMeme (replicate 10 UrgentCall) eq_refl)
    as [Hhist Habsent].
  split; [exact Hhist|]. apply Habsent.
  intros Hin. apply elem_of_replicate in Hin. destruct Hin as [Heq _].
  discriminate Heq.
Defined.

(** A break before [initialize_state]. *)
Lemma tools_need_initialize_state_witness :
  invoke sample_escalate sample_message sample_stress_bar sample_alert_visual
       sample_free_art sample_alert_art TakeABreak unset_world
  = (Raised AttributeError, unset_world).
Proof.
  exact (proj1 (tools_need_initialize_state sample_escalate sample_message sample_stress_bar sample_alert_visual
       sample_free_art sample_alert_art unset_world eq_refl) TakeABreak).
Defined.

(** An empty range with the boss alert level at 5: the call sleeps, then
    fails. *)
Lemma empty_range_fails_after_sleeping_witness :
  execute_break_tool sample_escalate sample_message sample_stress_bar sample_alert_visual
       sample_free_art sample_alert_art "take_a_break" "Basic break - recharging AI batteries" (5, 2)
    (mkWorld (Some (mkServerState 80 5 [] ∅)) sample_entropy 0 [])
  = (Raised ValueError,
     mkWorld (Some (mkServerState 80 5 [] ∅)) sample_entropy 0 [Sleep 20]).
Proof.
  exact (empty_range_fails_after_sleeping sample_escalate sample_message sample_stress_bar sample_alert_visual
       sample_free_art sample_alert_art "take_a_break"
           "Basic break - recharging AI batteries" 5 2
           (mkWorld (Some (mkServerState 80 5 [] ∅)) sample_entropy 0 [])
           (mkServerState 80 5 [] ∅) eq_refl ltac:(lia)).
Defined.

(** Netflix on a history that ends with bathroom, email: the response is
    the base response, a blank line and the master-routine text. *)
Lemma response_carries_summary_witness :
  ∃ base,
    format_response sample_message sample_stress_bar sample_alert_visual "watch_netflix"
      "Netflix and chill - quality entertainment time"
      (after
         (step_of
            (execute_break_tool sample_escalate sample_message sample_stress_bar sample_alert_visual
       sample_free_art sample_alert_art "watch_netflix"
               "Netflix and chill - quality entertainment time" (20, 40))
            (mkWorld (Some (mkServerState 70 0
                              ["bathroom_break"; "email_organizing"] ∅))
                     sample_entropy 0 [])))
    = (Returned base,
       after
         (step_of
            (execute_break_tool sample_escalate sample_message sample_stress_bar sample_alert_visual
       sample_free_art sample_alert_art "watch_netflix"
               "Netflix and chill - quality entertainment time" (20, 40))
            (mkWorld (Some (mkServerState 70 0
                              ["bathroom_break"; "email_organizing"] ∅))
                     sample_entropy 0 [])))
    ∧ result
        (step_of
           (execute_break_tool sample_escalate sample_message sample_stress_bar sample_alert_visual
       sample_free_art sample_alert_art "watch_netflix"
              "Netflix and chill - quality entertainment time" (20, 40))
           (mkWorld (Some (mkServerState 70 0
                             ["bathroom_break"; "email_organizing"] ∅))
                    sample_entropy 0 []))
      = Returned (base +:+ nl +:+ nl +:+ routine_event sample_free_art).
Proof.
  destruct (response_carries_summary sample_escalate sample_message sample_stress_bar sample_alert_visual
       sample_free_art sample_alert_art "watch_netflix"
              "Netflix and chill - quality entertainment time" 20 40
              (mkWorld (Some (mkServerState 70 0
                                ["bathroom_break"; "email_organizing"] ∅))
                       sample_entropy 0 [])
              (mkServerState 70 0 ["bathroom_break"; "email_organizing"] ∅)
              eq_refl ltac:(lia))
    as (base & text & Hbase & Hres & Htext & _).
  exists base. split; [exact Hbase|]. rewrite Hres, Htext. reflexivity.
Defined.

(** The counter of a first urgent call. *)
Lemma own_counter_after_call_witness :
  ∃ s',
    server_state
      (after
         (step_of
            (execute_break_tool sample_escalate sample_message sample_stress_bar sample_alert_visual
       sample_free_art sample_alert_art "urgent_call"
               "Urgent call - absolutely cannot be interrupted" (15, 35))
            sample_world))
    = Some s'
    ∧ combo_count s' !! "urgent_call" = Some 1.
Proof.
  exact (own_counter_after_call sample_escalate sample_message sample_stress_bar sample_alert_visual
       sample_free_art sample_alert_art "urgent_call"
           "Urgent call - absolutely cannot be interrupted" 15 35
           sample_world sample_state eq_refl ltac:(lia)).
Defined.

(** A seventh coffee, with a meme counter of 9 left in the map: the coffee
    counter goes from 6 to 0 and the meme counter from 9 to 0. *)
Lemma repetition_counters_bounded_witness :
  streak "coffee_mission"
    (after
       (step_of
          (execute_break_tool sample_escalate sample_message sample_stress_bar sample_alert_visual
       sample_free_art sample_alert_art "coffee_mission"
             "Coffee mission with office tour" (10, 30))
          (mkWorld (Some (mkServerState 40 2 ["coffee_mission"]
                            (<["coffee_mission" := 6]> (<["show_meme" := 9]> ∅))))
                   sample_entropy 0 []))) ≤ 6
  ∧ streak "show_meme"
      (after
         (step_of
            (execute_break_tool sample_escalate sample_message sample_stress_bar sample_alert_visual
       sample_free_art sample_alert_art "coffee_mission"
               "Coffee mission with office tour" (10, 30))
            (mkWorld (Some (mkServerState 40 2 ["coffee_mission"]
                              (<["coffee_mission" := 6]> (<["show_meme" := 9]> ∅))))
                     sample_entropy 0 []))) ≤ 4.
Proof.
  destruct (repetition_counters_bounded sample_escalate sample_message sample_stress_bar sample_alert_visual
       sample_free_art sample_alert_art "coffee_mission"
              "Coffee mission with office tour" 10 30
              (mkWorld (Some (mkServerState 40 2 ["coffee_mission"]
                                (<["coffee_mission" := 6]> (<["show_meme" := 9]> ∅))))
                       sample_entropy 0 [])
              (mkServerState 40 2 ["coffee_mission"]
                 (<["coffee_mission" := 6]> (<["show_meme" := 9]> ∅)))
              eq_refl ltac:(lia))
    as (Hcoffee & Hmeme & _).
  split; [exact Hcoffee|exact Hmeme].
Defined.

(** The keys after a coffee and an urgent call. *)
Lemma counter_keys_are_tools_called_witness :
  ∃ s',
    server_state
      (session_end sample_escalate sample_message sample_stress_bar sample_alert_visual
       sample_free_art sample_alert_art [CoffeeMission; UrgentCall] sample_world) = Some s'
    ∧ dom (combo_count s')
      = dom (combo_count sample_state)
        ∪ list_to_set (action_name <$> [CoffeeMission; UrgentCall]).
Proof.
  exact (proj2 (counter_keys_are_tools_called sample_escalate sample_message sample_stress_bar sample_alert_visual
       sample_free_art sample_alert_art [CoffeeMission; UrgentCall]
                  sample_world sample_state eq_refl)).
Defined.

(** The fifth meme of a new session. *)
Lemma five_memes_fire_once_witness :
  ∃ st,
    session sample_escalate sample_message sample_stress_bar sample_alert_visual
       sample_free_art sample_alert_art (replicate 5 ShowMeme) sample_world !! 4%nat = Some st
    ∧ meme_warning_step sample_message sample_stress_bar sample_alert_visual sample_alert_art st.
Proof.
  eexists. split; [reflexivity|].
  exact (five_memes_fire_once sample_escalate sample_message sample_stress_bar sample_alert_visual
       sample_free_art sample_alert_art sample_world sample_state 5 4 _
           eq_refl eq_refl eq_refl).
Defined.

(** The detector on a history that ends with the coffee being checked. *)
Lemma trigger_order_is_immaterial_witness :
  (holding (priority_order sample_escalate sample_free_art sample_alert_art)
     "coffee_mission"
     (mkServerState 50 0 ["deep_thinking"; "coffee_mission"] ∅) ≤ 1)%nat.
Proof.
  exact (proj1 (trigger_order_is_immaterial sample_escalate sample_free_art
                  sample_alert_art "coffee_mission"
                  (mkWorld (Some (mkServerState 50 0
                                    ["deep_thinking"; "coffee_mission"] ∅))
                           sample_entropy 0 [])
                  (mkServerState 50 0 ["deep_thinking"; "coffee_mission"] ∅)
                  eq_refl eq_refl)).
Defined.

(** An email after bathroom, email, with an email counter of 9: still the
    plain response, and the counter goes to 10. *)
Lemma quiet_tools_never_fire_witness :
  plain_response sample_message sample_stress_bar sample_alert_visual "email_organizing"
    "Email organization (and online shopping research)"
    (step_of (invoke sample_escalate sample_message sample_stress_bar sample_alert_visual
       sample_free_art sample_alert_art EmailOrganizing)
       (mkWorld (Some (mkServerState 70 0 ["bathroom_break"; "email_organizing"]
                         (<["email_organizing" := 9]> ∅)))
                sample_entropy 0 []))
  ∧ streak "email_organizing"
      (after
         (step_of (invoke sample_escalate sample_message sample_stress_bar sample_alert_visual
       sample_free_art sample_alert_art EmailOrganizing)
            (mkWorld (Some (mkServerState 70 0 ["bathroom_break"; "email_organizing"]
                              (<["email_organizing" := 9]> ∅)))
                     sample_entropy 0 [])))
    = 10.
Proof.
  assert (Hin : EmailOrganizing ∈ quiet_tools) by (do 3 right; left).
  destruct (quiet_tools_never_fire sample_escalate sample_message sample_stress_bar sample_alert_visual
       sample_free_art sample_alert_art EmailOrganizing
              (mkWorld (Some (mkServerState 70 0 ["bathroom_break"; "email_organizing"]
                                (<["email_organizing" := 9]> ∅)))
                       sample_entropy 0 [])
              (mkServerState 70 0 ["bathroom_break"; "email_organizing"]
                 (<["email_organizing" := 9]> ∅))
              Hin eq_refl)
    as (Hplain & _ & Hstreak).
  split; [exact Hplain|exact Hstreak].
Defined.

(** Netflix on a history that ends with bathroom, email. *)
Lemma netflix_fires_after_bathroom_email_witness :
  master_routine_step sample_message sample_stress_bar sample_alert_visual sample_free_art
    (step_of (invoke sample_escalate sample_message sample_stress_bar sample_alert_visual
       sample_free_art sample_alert_art WatchNetflix)
       (mkWorld (Some (mkServerState 70 0
                         ["urgent_call"; "bathroom_break"; "email_organizing"] ∅))
                sample_entropy 0 [])).
Proof.
  exact (netflix_fires_after_bathroom_email sample_escalate sample_message sample_stress_bar sample_alert_visual
       sample_free_art sample_alert_art
           (mkWorld (Some (mkServerState 70 0
                             ["urgent_call"; "bathroom_break"; "email_organizing"] ∅))
                    sample_entropy 0 [])
           (mkServerState 70 0
              ["urgent_call"; "bathroom_break"; "email_organizing"] ∅)
           eq_refl).
Defined.

(** A break on a history that ends with thinking, coffee. *)
Lemma break_fires_after_thinking_coffee_witness :
  awakening_step sample_message sample_stress_bar sample_alert_visual sample_free_art
    (step_of (invoke sample_escalate sample_message sample_stress_bar sample_alert_visual
       sample_free_art sample_alert_art TakeABreak)
       (mkWorld (Some (mkServerState 70 0 ["deep_thinking"; "coffee_mission"] ∅))
                sample_entropy 0 [])).
Proof.
  exact (break_fires_after_thinking_coffee sample_escalate sample_message sample_stress_bar sample_alert_visual
       sample_free_art sample_alert_art
           (mkWorld (Some (mkServerState 70 0 ["deep_thinking"; "coffee_mission"] ∅))
                    sample_entropy 0 [])
           (mkServerState 70 0 ["deep_thinking"; "coffee_mission"] ∅)
           eq_refl).
Defined.

(** A break on a full history of ten entries: the oldest entry leaves, the
    break enters, the length stays 10. *)
Lemma history_after_call_witness :
  history
    (after
       (step_of
          (execute_break_tool sample_escalate sample_message sample_stress_bar sample_alert_visual
       sample_free_art sample_alert_art "take_a_break"
             "Basic break - recharging AI batteries" (5, 20))
          (mkWorld (Some (mkServerState 70 0
                            ["show_meme"; "urgent_call"; "urgent_call"; "urgent_call";
                             "urgent_call"; "urgent_call"; "urgent_call"; "urgent_call";
                             "urgent_call"; "deep_thinking"] ∅))
                   sample_entropy 0 [])))
  = ["urgent_call"; "urgent_call"; "urgent_call"; "urgent_call"; "urgent_call";
     "urgent_call"; "urgent_call"; "urgent_call"; "deep_thinking"; "take_a_break"].
Proof.
  exact (proj1 (history_after_call sample_escalate sample_message sample_stress_bar sample_alert_visual
       sample_free_art sample_alert_art "take_a_break"
                  "Basic break - recharging AI batteries" 5 20
                  (mkWorld (Some (mkServerState 70 0
                                    ["show_meme"; "urgent_call"; "urgent_call";
                                     "urgent_call"; "urgent_call"; "urgent_call";
                                     "urgent_call"; "urgent_call"; "urgent_call";
                                     "deep_thinking"] ∅))
                           sample_entropy 0 [])
                  (mkServerState 70 0
                     ["show_meme"; "urgent_call"; "urgent_call"; "urgent_call";
                      "urgent_call"; "urgent_call"; "urgent_call"; "urgent_call";
                      "urgent_call"; "deep_thinking"] ∅)
                  eq_refl ltac:(lia))).
Defined.
